(** * glamor.c: initialisation, teardown and pixmap binding of glamor

    A shallow embedding of [src/glamor.c].  The X server (the "host") and the
    GL stack are collaborators: what glamor.c reads from them or writes to
    them is kept in one record, [host]; what they answer on a given call is
    an explicit argument, [answers]; the calls made into them that leave no
    trace in [host] are appended to a log.  C functions become computations
    in a state monad with failure, where failure stands for the dereference
    of a null pointer, or of a pointer into memory that was freed: the
    places where C defines no outcome. *)

From Stdlib Require Import ZArith List Bool Lia String.
From stdpp Require Import base option gmap.
Import ListNotations.
Local Open Scope Z_scope.

(** ** Function pointers *)

(** A slot of a dispatch table holds the address of a function.  glamor's own
    entry points are named; everything else the host may have put in a slot
    is [host_proc n]. *)
Inductive proc : Type :=
| NULL_proc
| P_glamor_close_screen
| P_glamor_create_gc
| P_glamor_create_pixmap
| P_glamor_destroy_pixmap
| P_glamor_get_spans
| P_glamor_get_image
| P_glamor_change_window_attributes
| P_glamor_copy_window
| P_glamor_bitmap_to_region
| P_glamor_composite
| P_glamor_trapezoids
| P_glamor_glyphs
| P_glamor_triangles
| P_glamor_add_traps
| P_glamor_glyph_unrealize
| P_glamor_create_picture
| P_glamor_destroy_picture
| P__glamor_block_handler
| P__glamor_wakeup_handler
| host_proc (id : N).

(** The members of [ScreenRec] that glamor.c assigns. *)
Record ScreenRec : Type := mkScreenRec {
  CloseScreen : proc;
  CreateGC : proc;
  CreatePixmap : proc;
  DestroyPixmap : proc;
  GetSpans : proc;
  GetImage : proc;
  ChangeWindowAttributes : proc;
  CopyWindow : proc;
  BitmapToRegion : proc
}.

(** The members of [PictureScreenRec] that glamor.c assigns. *)
Record PictureScreenRec : Type := mkPictureScreenRec {
  Composite : proc;
  Trapezoids : proc;
  Glyphs : proc;
  Triangles : proc;
  AddTraps : proc;
  UnrealizeGlyph : proc;
  CreatePicture : proc;
  DestroyPicture : proc
}.

(** [glamor_priv->saved_procs]. *)
Record glamor_saved_procs : Type := mkSavedProcs {
  close_screen : proc;
  create_gc : proc;
  create_pixmap : proc;
  destroy_pixmap : proc;
  get_spans : proc;
  get_image : proc;
  change_window_attributes : proc;
  copy_window : proc;
  bitmap_to_region : proc;
  composite : proc;
  trapezoids : proc;
  glyphs : proc;
  triangles : proc;
  addtraps : proc;
  unrealize_glyph : proc;
  create_picture : proc;
  destroy_picture : proc
}.

(** ** Flags *)

(** Modelled from the spec: glamor.h is not among the sources.  The spec
    (section 6) recognises three options, InvertedYAxis, UseScreenHooks and
    UseCompositingHooks, each one bit of the flag word, and nothing else. *)
Definition GLAMOR_INVERTED_Y_AXIS : Z := 1.
Definition GLAMOR_USE_SCREEN : Z := 2.
Definition GLAMOR_USE_PICTURE_SCREEN : Z := 4.
Definition GLAMOR_VALID_FLAGS : Z :=
  Z.lor GLAMOR_INVERTED_Y_AXIS
        (Z.lor GLAMOR_USE_SCREEN GLAMOR_USE_PICTURE_SCREEN).

(** [flags & bit] as a C condition. *)
Definition flag_set (flags bit : Z) : bool := negb (Z.land flags bit =? 0).

(** ** glamor's private records *)

Inductive glamor_gl_flavor : Type := GLAMOR_GL_DESKTOP | GLAMOR_GL_ES2.

Inductive glamor_pixmap_type_t : Type :=
| GLAMOR_MEMORY
| GLAMOR_TEXTURE_DRM
| GLAMOR_TEXTURE_ONLY.

(** [glamor_pixmap_fbo]: a render target.  The record stands for the object
    and for the one pointer to it. *)
Record glamor_pixmap_fbo : Type := mkFbo {
  fb : Z;
  tex : Z;
  fbo_width : Z;
  fbo_height : Z;
  fbo_depth : Z
}.

(** [glamor_pixmap_private]: the binding record of a pixmap.  [container] is
    the address of the pixmap; the back pointer to the screen private is left
    out, there being one screen. *)
Record glamor_pixmap_private : Type := mkPixmapPrivate {
  container : N;
  pixmap_type : glamor_pixmap_type_t;
  fbo : option glamor_pixmap_fbo
}.

(** [glamor_screen_private]: the context record.  The record stands for
    the object and for the pointer to it; [address_of_dispatch] is the value
    of that pointer, the address of the block [calloc] returned, which is
    also where the dispatch table embedded in the record lives:
    [&glamor_priv->dispatch].  [gl_version_of_dispatch] is what the table
    was initialised for. *)
Record glamor_screen_private : Type := mkScreenPrivate {
  yInverted : Z;
  gl_version_of_dispatch : Z;
  has_pack_invert : bool;
  has_fbo_blit : bool;
  max_fbo_size : Z;
  tick : Z;
  screen_fbo : Z;
  saved_procs : glamor_saved_procs;
  gl_flavor : glamor_gl_flavor;
  flags : Z;
  address_of_dispatch : N
}.

(** What [calloc] hands back: every member zero. *)
Definition zero_saved_procs : glamor_saved_procs :=
  mkSavedProcs NULL_proc NULL_proc NULL_proc NULL_proc NULL_proc NULL_proc
               NULL_proc NULL_proc NULL_proc NULL_proc NULL_proc NULL_proc
               NULL_proc NULL_proc NULL_proc NULL_proc NULL_proc.

Definition zero_screen_private : glamor_screen_private :=
  mkScreenPrivate 0 0 false false 0 0 0 zero_saved_procs GLAMOR_GL_DESKTOP 0
                  0%N.

Definition zero_pixmap_private : glamor_pixmap_private :=
  mkPixmapPrivate 0%N GLAMOR_MEMORY None.

(** Member assignments [glamor_priv->member = v]. *)
Definition set_yInverted (v : Z) (g : glamor_screen_private) :=
  mkScreenPrivate v (gl_version_of_dispatch g) (has_pack_invert g)
    (has_fbo_blit g) (max_fbo_size g) (tick g) (screen_fbo g) (saved_procs g)
    (gl_flavor g) (flags g)
    (address_of_dispatch g).
Definition set_dispatch (v : Z) (g : glamor_screen_private) :=
  mkScreenPrivate (yInverted g) v (has_pack_invert g)
    (has_fbo_blit g) (max_fbo_size g) (tick g) (screen_fbo g) (saved_procs g)
    (gl_flavor g) (flags g)
    (address_of_dispatch g).
Definition set_has_pack_invert (v : bool) (g : glamor_screen_private) :=
  mkScreenPrivate (yInverted g) (gl_version_of_dispatch g) v
    (has_fbo_blit g) (max_fbo_size g) (tick g) (screen_fbo g) (saved_procs g)
    (gl_flavor g) (flags g)
    (address_of_dispatch g).
Definition set_has_fbo_blit (v : bool) (g : glamor_screen_private) :=
  mkScreenPrivate (yInverted g) (gl_version_of_dispatch g) (has_pack_invert g)
    v (max_fbo_size g) (tick g) (screen_fbo g) (saved_procs g)
    (gl_flavor g) (flags g)
    (address_of_dispatch g).
Definition set_max_fbo_size (v : Z) (g : glamor_screen_private) :=
  mkScreenPrivate (yInverted g) (gl_version_of_dispatch g) (has_pack_invert g)
    (has_fbo_blit g) v (tick g) (screen_fbo g) (saved_procs g)
    (gl_flavor g) (flags g)
    (address_of_dispatch g).
Definition set_tick (v : Z) (g : glamor_screen_private) :=
  mkScreenPrivate (yInverted g) (gl_version_of_dispatch g) (has_pack_invert g)
    (has_fbo_blit g) (max_fbo_size g) v (screen_fbo g) (saved_procs g)
    (gl_flavor g) (flags g)
    (address_of_dispatch g).
Definition set_screen_fbo (v : Z) (g : glamor_screen_private) :=
  mkScreenPrivate (yInverted g) (gl_version_of_dispatch g) (has_pack_invert g)
    (has_fbo_blit g) (max_fbo_size g) (tick g) v (saved_procs g)
    (gl_flavor g) (flags g)
    (address_of_dispatch g).
Definition set_saved_procs (v : glamor_saved_procs) (g : glamor_screen_private) :=
  mkScreenPrivate (yInverted g) (gl_version_of_dispatch g) (has_pack_invert g)
    (has_fbo_blit g) (max_fbo_size g) (tick g) (screen_fbo g) v
    (gl_flavor g) (flags g)
    (address_of_dispatch g).
Definition set_gl_flavor (v : glamor_gl_flavor) (g : glamor_screen_private) :=
  mkScreenPrivate (yInverted g) (gl_version_of_dispatch g) (has_pack_invert g)
    (has_fbo_blit g) (max_fbo_size g) (tick g) (screen_fbo g) (saved_procs g)
    v (flags g) (address_of_dispatch g).
Definition set_flags (v : Z) (g : glamor_screen_private) :=
  mkScreenPrivate (yInverted g) (gl_version_of_dispatch g) (has_pack_invert g)
    (has_fbo_blit g) (max_fbo_size g) (tick g) (screen_fbo g) (saved_procs g)
    (gl_flavor g) v (address_of_dispatch g).
Definition set_address_of_dispatch (v : N) (g : glamor_screen_private) :=
  mkScreenPrivate (yInverted g) (gl_version_of_dispatch g) (has_pack_invert g)
    (has_fbo_blit g) (max_fbo_size g) (tick g) (screen_fbo g) (saved_procs g)
    (gl_flavor g) (flags g) v.

(** ** Pixmaps *)

Record DrawableRec : Type := mkDrawable {
  width : Z;
  height : Z;
  depth : Z;
  bitsPerPixel : Z
}.

(** A pixmap of the host.  [devPrivates] is the slot of
    [glamor_pixmap_private_key]: the address of the binding record, if any. *)
Record PixmapRec : Type := mkPixmap {
  drawable : DrawableRec;
  devKind : Z;
  usage_hint : Z;
  refcnt : Z;
  devPrivates : option N
}.

Inductive PixmapPtr : Type :=
| NullPixmap
| pixmap_at (a : N).

(** ** The host *)

(** Calls into the collaborators (GL, the render-target pool and the
    binding primitives of glamor_fbo.c, the shader initialisers, the log of
    the server, a handler the host keeps in a slot), recorded in the order
    in which they are made. *)
Inductive call : Type :=
| glFlush
| glFinish
| call_glamor_fbo_expire (at_tick : Z)
| call_glamor_create_fbo (w h d : Z) (usage : Z)
| call_glamor_create_fbo_from_tex (w h d : Z) (tex_name : Z) (flag : Z)
| call_glamor_destroy_fbo (f : glamor_pixmap_fbo)
| call_glamor_pixmap_detach_fbo (pixmap_priv : N)
| call_glamor_pixmap_attach_fbo (pixmap : PixmapPtr) (f : glamor_pixmap_fbo)
| call_screen_CloseScreen (p : proc) (idx : Z)
| call_ErrorF
| call_LogMessage
| call_glamor_gl_dispatch_init (gl_version : Z)
| call_glamor_init_composite_shaders
| call_glamor_init_pixmap_fbo
| call_glamor_init_solid_shader
| call_glamor_init_tile_shader
| call_glamor_init_putimage_shaders
| call_glamor_init_finish_access_shaders
| call_glamor_pixmap_init
| call_glamor_glyphs_fini
| call_glamor_fini_composite_shaders
| call_glamor_fini_pixmap_fbo
| call_glamor_fini_solid_shader
| call_glamor_fini_tile_shader
| call_glamor_fini_putimage_shaders
| call_glamor_fini_finish_access_shaders
| call_glamor_pixmap_fini.

(** Everything glamor.c reads or writes outside its own locals.
    [screen_devPrivates] is the slot of [glamor_screen_private_key] on the
    screen; the slot holds the only pointer to the context record that
    outlives [glamor_init], so the record is kept in the slot.  Pixmaps and
    binding records live in two heaps, addressed by number.  A handler
    registered with the event loop is kept with the data pointer it was
    registered with.  [context_blocks] holds the addresses of the blocks
    that [calloc] returned for context records and that were not freed
    since. *)
Record host : Type := mkHost {
  screen : ScreenRec;
  picture_screen : option PictureScreenRec;
  screen_devPrivates : option glamor_screen_private;
  screen_key_registered : bool;
  pixmap_key_registered : bool;
  block_and_wakeup_handlers : list (proc * proc * N);
  pixmaps : gmap N PixmapRec;
  pixmap_privates : gmap N glamor_pixmap_private;
  glamor_debug_level : Z;
  log : list call;
  context_blocks : gmap N unit
}.

Definition with_screen (v : ScreenRec) (s : host) : host :=
  let 'mkHost _ b c d e f g h i j k := s in mkHost v b c d e f g h i j k.
Definition with_picture_screen (v : option PictureScreenRec) (s : host) : host :=
  let 'mkHost a _ c d e f g h i j k := s in mkHost a v c d e f g h i j k.
Definition with_screen_devPrivates (v : option glamor_screen_private) (s : host) : host :=
  let 'mkHost a b _ d e f g h i j k := s in mkHost a b v d e f g h i j k.
Definition with_screen_key_registered (v : bool) (s : host) : host :=
  let 'mkHost a b c _ e f g h i j k := s in mkHost a b c v e f g h i j k.
Definition with_pixmap_key_registered (v : bool) (s : host) : host :=
  let 'mkHost a b c d _ f g h i j k := s in mkHost a b c d v f g h i j k.
Definition with_block_and_wakeup_handlers (v : list (proc * proc * N)) (s : host) : host :=
  let 'mkHost a b c d e _ g h i j k := s in mkHost a b c d e v g h i j k.
Definition with_pixmaps (v : gmap N PixmapRec) (s : host) : host :=
  let 'mkHost a b c d e f _ h i j k := s in mkHost a b c d e f v h i j k.
Definition with_pixmap_privates (v : gmap N glamor_pixmap_private) (s : host) : host :=
  let 'mkHost a b c d e f g _ i j k := s in mkHost a b c d e f g v i j k.
Definition with_glamor_debug_level (v : Z) (s : host) : host :=
  let 'mkHost a b c d e f g h _ j k := s in mkHost a b c d e f g h v j k.
Definition with_log (v : list call) (s : host) : host :=
  let 'mkHost a b c d e f g h i _ k := s in mkHost a b c d e f g h i v k.
Definition with_context_blocks (v : gmap N unit) (s : host) : host :=
  let 'mkHost a b c d e f g h i j _ := s in mkHost a b c d e f g h i j v.

(** What is fixed when glamor is built and linked into a server: the two
    preprocessor switches of glamor.c, the macros and constants of headers
    that are not among the sources, and the behaviour of the functions the
    host keeps in [CloseScreen]. *)
Record platform : Type := mkPlatform {
  RENDER : bool;
  GLAMOR_GLES2 : bool;
  GLAMOR_GL_VERSION_ENCODE : Z -> Z -> Z;
  GLAMOR_CREATE_PIXMAP_CPU : Z;
  glamor_check_fbo_depth : Z -> bool;
  BitsPerPixel : Z -> Z;
  PixmapBytePad : Z -> Z -> Z;
  call_CloseScreen : proc -> Z -> host -> option (bool * host)
}.

(** What the collaborators answer during one call of a glamor function. *)
Record answers : Type := mkAnswers {
  calloc_ok : bool;
  dixRegisterPrivateKey_screen_ok : bool;
  dixRegisterPrivateKey_pixmap_ok : bool;
  glamor_gl_get_version : Z;
  glamor_gl_has_extension : string -> bool;
  GL_MAX_RENDERBUFFER_SIZE : Z;
  GLAMOR_DEBUG : option Z;
  RegisterBlockAndWakeupHandlers_ok : bool;
  glamor_create_fbo_answer : option glamor_pixmap_fbo;
  glamor_create_fbo_from_tex_answer : option glamor_pixmap_fbo
}.

(** ** The monad *)

(** A computation reads and writes the host.  It has no result ([None])
    where the C code dereferences a null pointer, or reads or writes through
    a pointer to memory that was freed: C defines no outcome for either, and
    the model gives none.  For freed memory this is not to say that the
    server stops there. *)
Definition M (A : Type) : Type := host -> option (A * host).

Definition ret {A} (a : A) : M A := fun s => Some (a, s).
Definition bind {A B} (m : M A) (k : A -> M B) : M B :=
  fun s => match m s with
           | Some (a, s') => k a s'
           | None => None
           end.
Definition undefined {A} : M A := fun _ => None.
Definition gets {A} (f : host -> A) : M A := fun s => Some (f s, s).
Definition modify (f : host -> host) : M unit := fun s => Some (tt, f s).
Definition deref {A} (p : option A) : M A :=
  match p with
  | Some a => ret a
  | None => undefined
  end.
Definition emit (c : call) : M unit :=
  modify (fun s => with_log (log s ++ [c]) s).
Definition when (b : bool) (m : M unit) : M unit :=
  if b then m else ret tt.

Declare Scope glamor_scope.
Delimit Scope glamor_scope with glamor.
Notation "x <- c1 ;; c2" := (bind c1 (fun x => c2))
  (at level 100, c1 at next level, c2 at level 200, right associativity)
  : glamor_scope.
Notation "c1 ;; c2" := (bind c1 (fun _ => c2))
  (at level 100, c2 at level 200, right associativity) : glamor_scope.
Local Open Scope glamor_scope.

(** ** The host's side of the interface (section 6 of the spec) *)

(** [dixLookupPrivate] and [dixSetPrivate] on the screen. *)
Definition glamor_get_screen_private : M (option glamor_screen_private) :=
  gets screen_devPrivates.
Definition dixSetPrivate_screen (v : option glamor_screen_private) : M unit :=
  modify (with_screen_devPrivates v).

(** [dixRegisterPrivateKey]: the host says whether it worked; a key that was
    registered stays so. *)
Definition dixRegisterPrivateKey_screen (A : answers) : M bool :=
  if dixRegisterPrivateKey_screen_ok A
  then modify (with_screen_key_registered true) ;; ret true
  else ret false.
Definition dixRegisterPrivateKey_pixmap (A : answers) : M bool :=
  if dixRegisterPrivateKey_pixmap_ok A
  then modify (with_pixmap_key_registered true) ;; ret true
  else ret false.

Definition GetPictureScreenIfSet : M (option PictureScreenRec) :=
  gets picture_screen.

(** [RegisterBlockAndWakeupHandlers]: on success the pair is added, with
    the data pointer it is to be called with, to the handlers the event
    loop runs on every tick. *)
Definition RegisterBlockAndWakeupHandlers (A : answers) (b w : proc)
    (data : N) : M bool :=
  if RegisterBlockAndWakeupHandlers_ok A
  then modify (fun s => with_block_and_wakeup_handlers
                          (block_and_wakeup_handlers s ++ [(b, w, data)])
                          s) ;;
       ret true
  else ret false.

(** The address the allocator hands out: one that no live object of the
    heap has. *)
Definition unused_address {X} (heap : gmap N X) : N := fresh (dom heap).
Arguments unused_address : simpl never.

(** [calloc(1, sizeof(glamor_screen_private))], once the host has granted
    the memory: a zeroed context record in a block of its own, at an
    address that no live block has.  And [free] of a context record, which
    ends the life of its block and does nothing on a null pointer. *)
Definition calloc_screen_private : M glamor_screen_private :=
  fun s =>
    let a := unused_address (context_blocks s) in
    Some (set_address_of_dispatch a zero_screen_private,
          with_context_blocks (<[a := tt]> (context_blocks s)) s).
Definition free_screen_private (glamor_priv : option glamor_screen_private)
    : M unit :=
  match glamor_priv with
  | Some gp =>
      modify (fun s => with_context_blocks
                         (delete (address_of_dispatch gp) (context_blocks s))
                         s)
  | None => ret tt
  end.

(** Pixmaps behind pointers. *)
Definition load_pixmap (p : PixmapPtr) : M (N * PixmapRec) :=
  match p with
  | NullPixmap => undefined
  | pixmap_at a => px <- (fun s => deref (pixmaps s !! a) s) ;; ret (a, px)
  end.
Definition store_pixmap (a : N) (px : PixmapRec) : M unit :=
  modify (fun s => with_pixmaps (<[a := px]> (pixmaps s)) s).

(** The software backing store, [create(screen, w, h, depth, usage) ->
    Surface]: a new pixmap with one reference and empty private slots. *)
Definition fbCreatePixmap (P : platform) (w h d usage : Z) : M PixmapPtr :=
  fun s =>
    let a := unused_address (pixmaps s) in
    let px := mkPixmap (mkDrawable w h d (BitsPerPixel P d))
                       (PixmapBytePad P w d) usage 1 None in
    Some (pixmap_at a, with_pixmaps (<[a := px]> (pixmaps s)) s).

(** [fbDestroyPixmap]: drop one reference, free the pixmap with the last. *)
Definition fbDestroyPixmap (p : PixmapPtr) : M bool :=
  apx <- load_pixmap p ;;
  let '(a, px) := apx in
  if refcnt px - 1 =? 0
  then modify (fun s => with_pixmaps (delete a (pixmaps s)) s) ;; ret true
  else store_pixmap a (mkPixmap (drawable px) (devKind px) (usage_hint px)
                                (refcnt px - 1) (devPrivates px)) ;;
       ret true.

(** [screen->ModifyPixmapHeader], [modify_header(surface, w, h, pitch,
    data)] in the spec: a positive width, height or pitch replaces the old
    one, zero depth and bits per pixel keep theirs. *)
Definition ModifyPixmapHeader (p : PixmapPtr) (w h d bpp pitch : Z) : M bool :=
  apx <- load_pixmap p ;;
  let '(a, px) := apx in
  let dr := drawable px in
  let dr' := mkDrawable (if 0 <? w then w else width dr)
                        (if 0 <? h then h else height dr)
                        (if 0 <? d then d else depth dr)
                        (if 0 <? bpp then bpp else bitsPerPixel dr) in
  store_pixmap a (mkPixmap dr' (if 0 <? pitch then pitch else devKind px)
                           (usage_hint px) (refcnt px) (devPrivates px)) ;;
  ret true.

(** The slot of [glamor_pixmap_private_key] on a pixmap. *)
Definition glamor_get_pixmap_private (p : PixmapPtr) : M (option N) :=
  apx <- load_pixmap p ;; ret (devPrivates (snd apx)).
Definition dixSetPrivate_pixmap (p : PixmapPtr) (v : option N) : M unit :=
  apx <- load_pixmap p ;;
  let '(a, px) := apx in
  store_pixmap a (mkPixmap (drawable px) (devKind px) (usage_hint px)
                           (refcnt px) v).

(** Binding records behind pointers.  A read through the address of a
    record that was freed has no defined outcome in C, and none here. *)
Definition load_pixmap_private (a : N) : M glamor_pixmap_private :=
  fun s => deref (pixmap_privates s !! a) s.
Definition store_pixmap_private (a : N) (v : glamor_pixmap_private) : M unit :=
  modify (fun s => with_pixmap_privates (<[a := v]> (pixmap_privates s)) s).

(** [calloc(1, sizeof(glamor_pixmap_private))] and [free]. *)
Definition calloc_pixmap_private (A : answers) : M (option N) :=
  if calloc_ok A
  then fun s =>
         let a := unused_address (pixmap_privates s) in
         Some (Some a, with_pixmap_privates
                         (<[a := zero_pixmap_private]> (pixmap_privates s)) s)
  else ret None.
Definition free_pixmap_private (a : N) : M unit :=
  modify (fun s => with_pixmap_privates (delete a (pixmap_privates s)) s).

(** ** glamor_fbo.c and glamor_utils.h, as far as glamor.c uses them *)

(** Modelled from the spec: [glamor_check_fbo_size] is a macro of a header
    that is not among the sources.  Section 4.2: a request is feasible when
    "width,height <= max dimension", the dimension queried at
    initialisation. *)
Definition glamor_check_fbo_size (glamor_priv : glamor_screen_private)
    (w h : Z) : bool :=
  (w <=? max_fbo_size glamor_priv) && (h <=? max_fbo_size glamor_priv).

(** Modelled from the spec: [glamor_pixmap_detach_fbo] of glamor_fbo.c is not
    among the sources.  [detach(surface) -> RenderTarget|None]: the record
    gives up the target it owns, if any. *)
Definition glamor_pixmap_detach_fbo (pixmap_priv : N)
    : M (option glamor_pixmap_fbo) :=
  emit (call_glamor_pixmap_detach_fbo pixmap_priv) ;;
  pp <- load_pixmap_private pixmap_priv ;;
  store_pixmap_private pixmap_priv
    (mkPixmapPrivate (container pp) (pixmap_type pp) None) ;;
  ret (fbo pp).

(** Modelled from the spec: [glamor_pixmap_attach_fbo] of glamor_fbo.c is not
    among the sources.  The binding record of the pixmap takes the target as
    the one it owns. *)
Definition glamor_pixmap_attach_fbo (pixmap : PixmapPtr)
    (f : glamor_pixmap_fbo) : M unit :=
  emit (call_glamor_pixmap_attach_fbo pixmap f) ;;
  pixmap_priv <- glamor_get_pixmap_private pixmap ;;
  a <- deref pixmap_priv ;;
  pp <- load_pixmap_private a ;;
  store_pixmap_private a
    (mkPixmapPrivate (container pp) (pixmap_type pp) (Some f)).

(** Modelled from the spec: [glamor_destroy_fbo], [glamor_create_fbo],
    [glamor_create_fbo_from_tex] and [glamor_fbo_expire] of glamor_fbo.c are
    not among the sources.  They are the pool's [release], [acquire] and
    [expire]: each is recorded as a call, and an acquisition succeeds or
    fails as the pool answers. *)
Definition glamor_destroy_fbo (f : option glamor_pixmap_fbo) : M unit :=
  f' <- deref f ;; emit (call_glamor_destroy_fbo f').
Definition glamor_create_fbo (A : answers) (w h d usage : Z)
    : M (option glamor_pixmap_fbo) :=
  emit (call_glamor_create_fbo w h d usage) ;;
  ret (glamor_create_fbo_answer A).
Definition glamor_create_fbo_from_tex (A : answers) (w h d tex_name flag : Z)
    : M (option glamor_pixmap_fbo) :=
  emit (call_glamor_create_fbo_from_tex w h d tex_name flag) ;;
  ret (glamor_create_fbo_from_tex_answer A).
Definition glamor_fbo_expire (glamor_priv : glamor_screen_private) : M unit :=
  emit (call_glamor_fbo_expire (tick glamor_priv)).

(** ** glamor.c *)

(** [glamor_set_pixmap_texture], lines 81-109. *)
Definition glamor_set_pixmap_texture (A : answers) (pixmap : PixmapPtr)
    (tex_name : Z) : M unit :=
  glamor_priv <- glamor_get_screen_private ;;
  pixmap_priv <- glamor_get_pixmap_private pixmap ;;
  a <- deref pixmap_priv ;;
  pp <- load_pixmap_private a ;;
  match fbo pp with
  | Some _ => f <- glamor_pixmap_detach_fbo a ;; glamor_destroy_fbo f
  | None => ret tt
  end ;;
  apx <- load_pixmap pixmap ;;
  let dr := drawable (snd apx) in
  f <- glamor_create_fbo_from_tex A (width dr) (height dr) (depth dr)
                                  tex_name 0 ;;
  match f with
  | None => emit call_ErrorF
  | Some f' => glamor_pixmap_attach_fbo pixmap f'
  end.

(** [pitch = (((w * bitsPerPixel + 7) / 8) + 3) & ~3], line 177. *)
Definition pixmap_pitch (w bpp : Z) : Z :=
  Z.land (Z.quot (w * bpp + 7) 8 + 3) (Z.lnot 3).

(** [glamor_create_pixmap], lines 125-180. *)
Definition glamor_create_pixmap (P : platform) (A : answers)
    (w h d usage : Z) : M PixmapPtr :=
  glamor_priv <- glamor_get_screen_private ;;
  if (32767 <? w) || (32767 <? h) then ret NullPixmap
  else
    gp <- deref glamor_priv ;;
    if negb (glamor_check_fbo_size gp w h)
       || negb (glamor_check_fbo_depth P d)
       || (usage =? GLAMOR_CREATE_PIXMAP_CPU P)
    then fbCreatePixmap P w h d usage
    else
      pixmap <- fbCreatePixmap P 0 0 d usage ;;
      pixmap_priv <- calloc_pixmap_private A ;;
      match pixmap_priv with
      | None => fbCreatePixmap P w h d usage
      | Some a =>
          dixSetPrivate_pixmap pixmap (Some a) ;;
          store_pixmap_private a
            (mkPixmapPrivate
               (match pixmap with pixmap_at c => c | NullPixmap => 0%N end)
               GLAMOR_TEXTURE_ONLY None) ;;
          if (w =? 0) || (h =? 0) then ret pixmap
          else
            f <- glamor_create_fbo A w h d usage ;;
            match f with
            | None =>
                fbDestroyPixmap pixmap ;;
                free_pixmap_private a ;;
                fbCreatePixmap P w h d usage
            | Some f' =>
                glamor_pixmap_attach_fbo pixmap f' ;;
                apx <- load_pixmap pixmap ;;
                let pitch :=
                  pixmap_pitch w (bitsPerPixel (drawable (snd apx))) in
                ModifyPixmapHeader pixmap w h 0 0 pitch ;;
                ret pixmap
            end
      end.

(** [glamor_block_handler], lines 206-217.  [tick] is taken to be an
    [unsigned int]. *)
Definition glamor_block_handler : M unit :=
  glamor_priv <- glamor_get_screen_private ;;
  gp <- deref glamor_priv ;;
  let gp := set_tick ((tick gp + 1) mod 2 ^ 32) gp in
  dixSetPrivate_screen (Some gp) ;;
  emit glFlush ;;
  emit glFinish ;;
  glamor_fbo_expire gp.

(** [_glamor_block_handler], lines 219-226.  [data] is the dispatch table:
    [glFlush] and [glFinish] are read through it, out of the block of the
    context record it lies in. *)
Definition _glamor_block_handler (data : N) : M unit :=
  (fun s => deref (context_blocks s !! data) s) ;;
  emit glFlush ;;
  emit glFinish.

(** [_glamor_wakeup_handler], lines 228-231. *)
Definition _glamor_wakeup_handler : M unit := ret tt.

(** [glamor_set_debug_level], lines 233-242: the value of the environment
    variable when it parses as a number, zero otherwise. *)
Definition glamor_set_debug_level (A : answers) : M unit :=
  modify (with_glamor_debug_level
            (match GLAMOR_DEBUG A with
             | Some v => v
             | None => 0
             end)).

(** The handlers glamor puts into the screen's table, lines 329-357: the old
    handler of each slot is saved, then the slot is overwritten. *)
Definition save_screen_procs (scr : ScreenRec) (sp : glamor_saved_procs)
    : glamor_saved_procs :=
  {| close_screen := CloseScreen scr;
     create_gc := CreateGC scr;
     create_pixmap := CreatePixmap scr;
     destroy_pixmap := DestroyPixmap scr;
     get_spans := GetSpans scr;
     get_image := GetImage scr;
     change_window_attributes := ChangeWindowAttributes scr;
     copy_window := CopyWindow scr;
     bitmap_to_region := BitmapToRegion scr;
     composite := composite sp;
     trapezoids := trapezoids sp;
     glyphs := glyphs sp;
     triangles := triangles sp;
     addtraps := addtraps sp;
     unrealize_glyph := unrealize_glyph sp;
     create_picture := create_picture sp;
     destroy_picture := destroy_picture sp |}.

Definition install_screen_procs (scr : ScreenRec) : ScreenRec :=
  {| CloseScreen := P_glamor_close_screen;
     CreateGC := P_glamor_create_gc;
     CreatePixmap := P_glamor_create_pixmap;
     DestroyPixmap := P_glamor_destroy_pixmap;
     GetSpans := P_glamor_get_spans;
     GetImage := P_glamor_get_image;
     ChangeWindowAttributes := P_glamor_change_window_attributes;
     CopyWindow := P_glamor_copy_window;
     BitmapToRegion := P_glamor_bitmap_to_region |}.

(** Lines 361-377, under [flags & GLAMOR_USE_PICTURE_SCREEN]. *)
Definition save_picture_procs (ps : PictureScreenRec)
    (sp : glamor_saved_procs) : glamor_saved_procs :=
  {| close_screen := close_screen sp;
     create_gc := create_gc sp;
     create_pixmap := create_pixmap sp;
     destroy_pixmap := destroy_pixmap sp;
     get_spans := get_spans sp;
     get_image := get_image sp;
     change_window_attributes := change_window_attributes sp;
     copy_window := copy_window sp;
     bitmap_to_region := bitmap_to_region sp;
     composite := Composite ps;
     trapezoids := Trapezoids ps;
     glyphs := Glyphs ps;
     triangles := Triangles ps;
     addtraps := AddTraps ps;
     unrealize_glyph := UnrealizeGlyph ps;
     create_picture := create_picture sp;
     destroy_picture := destroy_picture sp |}.

Definition install_picture_procs (ps : PictureScreenRec) : PictureScreenRec :=
  {| Composite := P_glamor_composite;
     Trapezoids := P_glamor_trapezoids;
     Glyphs := P_glamor_glyphs;
     Triangles := P_glamor_triangles;
     AddTraps := P_glamor_add_traps;
     UnrealizeGlyph := P_glamor_glyph_unrealize;
     CreatePicture := CreatePicture ps;
     DestroyPicture := DestroyPicture ps |}.

(** Lines 379-383, under [RENDER] alone. *)
Definition save_picture_lifetime_procs (ps : PictureScreenRec)
    (sp : glamor_saved_procs) : glamor_saved_procs :=
  {| close_screen := close_screen sp;
     create_gc := create_gc sp;
     create_pixmap := create_pixmap sp;
     destroy_pixmap := destroy_pixmap sp;
     get_spans := get_spans sp;
     get_image := get_image sp;
     change_window_attributes := change_window_attributes sp;
     copy_window := copy_window sp;
     bitmap_to_region := bitmap_to_region sp;
     composite := composite sp;
     trapezoids := trapezoids sp;
     glyphs := glyphs sp;
     triangles := triangles sp;
     addtraps := addtraps sp;
     unrealize_glyph := unrealize_glyph sp;
     create_picture := CreatePicture ps;
     destroy_picture := DestroyPicture ps |}.

Definition install_picture_lifetime_procs (ps : PictureScreenRec)
    : PictureScreenRec :=
  {| Composite := Composite ps;
     Trapezoids := Trapezoids ps;
     Glyphs := Glyphs ps;
     Triangles := Triangles ps;
     AddTraps := AddTraps ps;
     UnrealizeGlyph := UnrealizeGlyph ps;
     CreatePicture := P_glamor_create_picture;
     DestroyPicture := P_glamor_destroy_picture |}.

(** What [glamor_close_screen] writes back, lines 444-452 and 457-461. *)
Definition restore_screen_procs (sp : glamor_saved_procs) (scr : ScreenRec)
    : ScreenRec :=
  {| CloseScreen := close_screen sp;
     CreateGC := create_gc sp;
     CreatePixmap := create_pixmap sp;
     DestroyPixmap := destroy_pixmap sp;
     GetSpans := get_spans sp;
     GetImage := GetImage scr;
     ChangeWindowAttributes := change_window_attributes sp;
     CopyWindow := copy_window sp;
     BitmapToRegion := bitmap_to_region sp |}.

Definition restore_picture_procs (sp : glamor_saved_procs)
    (ps : PictureScreenRec) : PictureScreenRec :=
  {| Composite := composite sp;
     Trapezoids := trapezoids sp;
     Glyphs := glyphs sp;
     Triangles := triangles sp;
     AddTraps := AddTraps ps;
     UnrealizeGlyph := UnrealizeGlyph ps;
     CreatePicture := create_picture sp;
     DestroyPicture := DestroyPicture ps |}.

(** [ps->member]: [ps] is what [GetPictureScreenIfSet] returned, possibly
    null. *)
Definition deref_ps : M PictureScreenRec :=
  ps <- GetPictureScreenIfSet ;; deref ps.

(** The label [fail] of [glamor_init], lines 402-406. *)
Definition glamor_init_fail (glamor_priv : glamor_screen_private) : M bool :=
  free_screen_private (Some glamor_priv) ;;
  dixSetPrivate_screen None ;;
  ret false.

(** [glamor_init] from line 359 to [return TRUE]. *)
Definition glamor_init_finish (P : platform) (flags : Z)
    (glamor_priv : glamor_screen_private) : M bool :=
  glamor_priv <-
    (if RENDER P
     then
       glamor_priv <-
         (if flag_set flags GLAMOR_USE_PICTURE_SCREEN
          then
            ps <- deref_ps ;;
            modify (with_picture_screen (Some (install_picture_procs ps))) ;;
            ret (set_saved_procs
                   (save_picture_procs ps (saved_procs glamor_priv))
                   glamor_priv)
          else ret glamor_priv) ;;
       ps <- deref_ps ;;
       modify (with_picture_screen
                 (Some (install_picture_lifetime_procs ps))) ;;
       emit call_glamor_init_composite_shaders ;;
       ret (set_saved_procs
              (save_picture_lifetime_procs ps (saved_procs glamor_priv))
              glamor_priv)
     else ret glamor_priv) ;;
  emit call_glamor_init_pixmap_fbo ;;
  emit call_glamor_init_solid_shader ;;
  emit call_glamor_init_tile_shader ;;
  emit call_glamor_init_putimage_shaders ;;
  emit call_glamor_init_finish_access_shaders ;;
  emit call_glamor_pixmap_init ;;
  let glamor_priv :=
    set_gl_flavor (if GLAMOR_GLES2 P then GLAMOR_GL_ES2 else GLAMOR_GL_DESKTOP)
                  glamor_priv in
  let glamor_priv := set_flags flags glamor_priv in
  dixSetPrivate_screen (Some glamor_priv) ;;
  ret true.

(** [glamor_init], lines 247-407.  The context record is a local value
    while it is filled in; the slot of the screen receives it at line 277
    and, the slot holding a pointer, sees the later assignments, which the
    last [dixSetPrivate_screen] of [glamor_init_finish] stands for. *)
Definition glamor_init (P : platform) (A : answers) (flags : Z) : M bool :=
  if negb (Z.land flags (Z.lnot GLAMOR_VALID_FLAGS) =? 0)
  then emit call_ErrorF ;; ret false
  else if negb (calloc_ok A) then ret false
  else
    glamor_priv <- calloc_screen_private ;;
    let glamor_priv :=
      set_yInverted
        (if flag_set flags GLAMOR_INVERTED_Y_AXIS then 1 else 0)
        glamor_priv in
    ok <- dixRegisterPrivateKey_screen A ;;
    if negb ok then emit call_LogMessage ;; glamor_init_fail glamor_priv
    else
      dixSetPrivate_screen (Some glamor_priv) ;;
      ok <- dixRegisterPrivateKey_pixmap A ;;
      if negb ok then emit call_LogMessage ;; glamor_init_fail glamor_priv
      else
        let gl_version := glamor_gl_get_version A in
        if gl_version <?
             (if GLAMOR_GLES2 P
              then GLAMOR_GL_VERSION_ENCODE P 2 0
              else GLAMOR_GL_VERSION_ENCODE P 1 3)
        then emit call_ErrorF ;; glamor_init_fail glamor_priv
        else
          emit (call_glamor_gl_dispatch_init gl_version) ;;
          let glamor_priv := set_dispatch gl_version glamor_priv in
          if GLAMOR_GLES2 P
             && negb (glamor_gl_has_extension A
                        "GL_EXT_texture_format_BGRA8888"%string)
          then emit call_ErrorF ;; glamor_init_fail glamor_priv
          else
            let glamor_priv :=
              set_has_pack_invert
                (glamor_gl_has_extension A "GL_MESA_pack_invert"%string)
                glamor_priv in
            let glamor_priv :=
              set_has_fbo_blit
                (glamor_gl_has_extension A "GL_EXT_framebuffer_blit"%string)
                glamor_priv in
            let glamor_priv :=
              set_max_fbo_size (GL_MAX_RENDERBUFFER_SIZE A) glamor_priv in
            glamor_set_debug_level A ;;
            if flag_set flags GLAMOR_USE_SCREEN
            then
              ok <- RegisterBlockAndWakeupHandlers A
                      P__glamor_block_handler P__glamor_wakeup_handler
                      (address_of_dispatch glamor_priv) ;;
              if negb ok then glamor_init_fail glamor_priv
              else
                scr <- gets screen ;;
                modify (with_screen (install_screen_procs scr)) ;;
                glamor_init_finish P flags
                  (set_saved_procs
                     (save_screen_procs scr (saved_procs glamor_priv))
                     glamor_priv)
            else glamor_init_finish P flags glamor_priv.

(** [glamor_release_screen_priv], lines 409-428. *)
Definition glamor_release_screen_priv (P : platform) : M unit :=
  glamor_priv <- glamor_get_screen_private ;;
  when (RENDER P) (emit call_glamor_fini_composite_shaders) ;;
  emit call_glamor_fini_pixmap_fbo ;;
  emit call_glamor_fini_solid_shader ;;
  emit call_glamor_fini_tile_shader ;;
  emit call_glamor_fini_putimage_shaders ;;
  emit call_glamor_fini_finish_access_shaders ;;
  emit call_glamor_pixmap_fini ;;
  free_screen_private glamor_priv ;;
  dixSetPrivate_screen None.

(** [glamor_close_screen] up to the release of the context record, lines
    436-464. *)
Definition glamor_close_screen_restore (P : platform) : M Z :=
  glamor_priv <- glamor_get_screen_private ;;
  gp <- deref glamor_priv ;;
  let flags := flags gp in
  emit call_glamor_glyphs_fini ;;
  when (flag_set flags GLAMOR_USE_SCREEN)
       (modify (fun s => with_screen
                           (restore_screen_procs (saved_procs gp) (screen s))
                           s)) ;;
  when (RENDER P)
       (ps <- GetPictureScreenIfSet ;;
        match ps with
        | Some psr =>
            when (flag_set flags GLAMOR_USE_PICTURE_SCREEN)
                 (modify (with_picture_screen
                            (Some (restore_picture_procs (saved_procs gp)
                                                         psr))))
        | None => ret tt
        end) ;;
  glamor_release_screen_priv P ;;
  ret flags.

(** [glamor_close_screen], lines 430-470. *)
Definition glamor_close_screen (P : platform) (idx : Z) : M bool :=
  flags <- glamor_close_screen_restore P ;;
  if flag_set flags GLAMOR_USE_SCREEN
  then
    scr <- gets screen ;;
    emit (call_screen_CloseScreen (CloseScreen scr) idx) ;;
    call_CloseScreen P (CloseScreen scr) idx
  else ret true.

(** [glamor_fini], lines 473-477. *)
Definition glamor_fini : M unit := ret tt.

(** ** The event loop of the host *)

(** The body behind a registered block handler, called with the data
    pointer of its registration.  Handlers of other components are not
    glamor's business and do nothing here. *)
Definition run_block_handler (b : proc) (data : N) : M unit :=
  match b with
  | P__glamor_block_handler => _glamor_block_handler data
  | _ => ret tt
  end.

Fixpoint run_block_handlers (hs : list (proc * proc * N)) : M unit :=
  match hs with
  | [] => ret tt
  | (b, _, data) :: hs' => run_block_handler b data ;; run_block_handlers hs'
  end.

(** One tick: every registered block handler runs, in order of
    registration. *)
Definition BlockHandler : M unit :=
  hs <- gets block_and_wakeup_handlers ;;
  run_block_handlers hs.

(** The calls by which [glamor_set_pixmap_texture] gets rid of what the
    binding record at [pixmap_priv] owns, lines 94-97. *)
Definition detach_and_dispose (pixmap_priv : N)
    (owned : option glamor_pixmap_fbo) : list call :=
  match owned with
  | Some old =>
      [call_glamor_pixmap_detach_fbo pixmap_priv; call_glamor_destroy_fbo old]
  | None => []
  end.

(** The collaborators let an initialisation through: memory and both
    private keys are granted, GL is recent enough for the build and has the
    extension a GLES2 build requires, and the event loop accepts the
    handlers. *)
Definition cooperative (P : platform) (A : answers) : Prop :=
  calloc_ok A = true /\
  dixRegisterPrivateKey_screen_ok A = true /\
  dixRegisterPrivateKey_pixmap_ok A = true /\
  (glamor_gl_get_version A <?
     (if GLAMOR_GLES2 P
      then GLAMOR_GL_VERSION_ENCODE P 2 0
      else GLAMOR_GL_VERSION_ENCODE P 1 3)) = false /\
  (GLAMOR_GLES2 P = true ->
   glamor_gl_has_extension A "GL_EXT_texture_format_BGRA8888"%string = true) /\
  RegisterBlockAndWakeupHandlers_ok A = true.

(** ** A concrete server *)

(** A desktop GL build with RENDER, the depths and the version encoding of
    a usual server, and a chained [CloseScreen] that reports success and
    touches nothing. *)
Definition example_platform : platform :=
  {| RENDER := true;
     GLAMOR_GLES2 := false;
     GLAMOR_GL_VERSION_ENCODE := fun major minor => major * 256 + minor;
     GLAMOR_CREATE_PIXMAP_CPU := 257;
     glamor_check_fbo_depth :=
       fun d => (d =? 8) || (d =? 15) || (d =? 16) || (d =? 24)
                || (d =? 30) || (d =? 32);
     BitsPerPixel := fun d => if d <=? 8 then 8 else if d <=? 16 then 16 else 32;
     PixmapBytePad :=
       fun w d =>
         let bpp := if d <=? 8 then 8 else if d <=? 16 then 16 else 32 in
         Z.land (Z.quot (w * bpp + 7) 8 + 3) (Z.lnot 3);
     call_CloseScreen := fun _ _ s => Some (true, s) |}.

Definition example_fbo : glamor_pixmap_fbo := mkFbo 1 1 32 32 24.
Definition other_fbo : glamor_pixmap_fbo := mkFbo 2 7 32 32 24.

(** Every collaborator cooperates: GL 2.1, all extensions, 4096 as the
    largest render target. *)
Definition good_answers : answers :=
  {| calloc_ok := true;
     dixRegisterPrivateKey_screen_ok := true;
     dixRegisterPrivateKey_pixmap_ok := true;
     glamor_gl_get_version := 2 * 256 + 1;
     glamor_gl_has_extension := fun _ => true;
     GL_MAX_RENDERBUFFER_SIZE := 4096;
     GLAMOR_DEBUG := None;
     RegisterBlockAndWakeupHandlers_ok := true;
     glamor_create_fbo_answer := Some example_fbo;
     glamor_create_fbo_from_tex_answer := Some other_fbo |}.

(** The same, but the pool has no render target to give. *)
Definition pool_exhausted : answers :=
  {| calloc_ok := true;
     dixRegisterPrivateKey_screen_ok := true;
     dixRegisterPrivateKey_pixmap_ok := true;
     glamor_gl_get_version := 2 * 256 + 1;
     glamor_gl_has_extension := fun _ => true;
     GL_MAX_RENDERBUFFER_SIZE := 4096;
     GLAMOR_DEBUG := None;
     RegisterBlockAndWakeupHandlers_ok := true;
     glamor_create_fbo_answer := None;
     glamor_create_fbo_from_tex_answer := None |}.

(** The same as [good_answers], but GL is version 1.1. *)
Definition old_gl : answers :=
  {| calloc_ok := true;
     dixRegisterPrivateKey_screen_ok := true;
     dixRegisterPrivateKey_pixmap_ok := true;
     glamor_gl_get_version := 1 * 256 + 1;
     glamor_gl_has_extension := fun _ => true;
     GL_MAX_RENDERBUFFER_SIZE := 4096;
     GLAMOR_DEBUG := None;
     RegisterBlockAndWakeupHandlers_ok := true;
     glamor_create_fbo_answer := Some example_fbo;
     glamor_create_fbo_from_tex_answer := Some other_fbo |}.

(** A server before glamor: every slot holds a handler of the host. *)
Definition example_host : host :=
  {| screen :=
       mkScreenRec (host_proc 1) (host_proc 2) (host_proc 3) (host_proc 4)
                   (host_proc 5) (host_proc 6) (host_proc 7) (host_proc 8)
                   (host_proc 9);
     picture_screen :=
       Some (mkPictureScreenRec (host_proc 10) (host_proc 11) (host_proc 12)
                                (host_proc 13) (host_proc 14) (host_proc 15)
                                (host_proc 16) (host_proc 17));
     screen_devPrivates := None;
     screen_key_registered := false;
     pixmap_key_registered := false;
     block_and_wakeup_handlers := [];
     pixmaps := ∅;
     pixmap_privates := ∅;
     glamor_debug_level := 0;
     log := [];
     context_blocks := ∅ |}.

(** The context record of a running glamor with 4096 as the largest render
    target, in the block at address 0, and the server it runs in. *)
Definition example_screen_private : glamor_screen_private :=
  set_flags GLAMOR_USE_SCREEN
    (set_saved_procs (save_screen_procs (screen example_host) zero_saved_procs)
       (set_max_fbo_size 4096 zero_screen_private)).

Definition running_host : host :=
  with_context_blocks {[ 0%N := tt ]}
    (with_screen (install_screen_procs (screen example_host))
       (with_screen_devPrivates (Some example_screen_private) example_host)).

(** A running server with one pixmap, at address 5, bound through the
    record at address 9 to [example_fbo]. *)
Definition bound_host : host :=
  with_pixmaps {[ 5%N := mkPixmap (mkDrawable 32 32 24 32) 128 0 1 (Some 9%N) ]}
    (with_pixmap_privates
       {[ 9%N := mkPixmapPrivate 5%N GLAMOR_TEXTURE_ONLY (Some example_fbo) ]}
       running_host).

(** ** The rest of glamor.c *)

(** The address behind a pixmap pointer, as stored in [container]. *)
Definition pixmap_address (p : PixmapPtr) : N :=
  match p with
  | pixmap_at c => c
  | NullPixmap => 0%N
  end.

(** [glamor_set_pixmap_type], lines 63-79.  The result of [calloc] is not
    tested before [pixmap_priv->container] is assigned. *)
Definition glamor_set_pixmap_type (A : answers) (pixmap : PixmapPtr)
    (type : glamor_pixmap_type_t) : M unit :=
  load_pixmap pixmap ;;
  glamor_priv <- glamor_get_screen_private ;;
  pixmap_priv <- glamor_get_pixmap_private pixmap ;;
  a <- match pixmap_priv with
       | Some a => ret a
       | None =>
           pixmap_priv <- calloc_pixmap_private A ;;
           dixSetPrivate_pixmap pixmap pixmap_priv ;;
           a <- deref pixmap_priv ;;
           pp <- load_pixmap_private a ;;
           store_pixmap_private a
             (mkPixmapPrivate (pixmap_address pixmap) (pixmap_type pp)
                              (fbo pp)) ;;
           ret a
       end ;;
  pp <- load_pixmap_private a ;;
  store_pixmap_private a (mkPixmapPrivate (container pp) type (fbo pp)).

(** [glamor_set_screen_pixmap], lines 111-123. *)
Definition glamor_set_screen_pixmap (screen_pixmap : PixmapPtr) : M unit :=
  apx <- load_pixmap screen_pixmap ;;
  glamor_priv <- glamor_get_screen_private ;;
  pixmap_priv <- glamor_get_pixmap_private screen_pixmap ;;
  a <- deref pixmap_priv ;;
  pp <- load_pixmap_private a ;;
  f <- deref (fbo pp) ;;
  gp <- deref glamor_priv ;;
  dixSetPrivate_screen (Some (set_screen_fbo (fb f) gp)) ;;
  let dr := drawable (snd apx) in
  store_pixmap_private a
    (mkPixmapPrivate (container pp) (pixmap_type pp)
       (Some (mkFbo (fb f) (tex f) (width dr) (height dr) (fbo_depth f)))).

(** [glamor_destroy_textured_pixmap], lines 182-197. *)
Definition glamor_destroy_textured_pixmap (pixmap : PixmapPtr) : M unit :=
  apx <- load_pixmap pixmap ;;
  if refcnt (snd apx) =? 1
  then
    pixmap_priv <- glamor_get_pixmap_private pixmap ;;
    match pixmap_priv with
    | Some a =>
        f <- glamor_pixmap_detach_fbo a ;;
        match f with
        | Some _ => glamor_destroy_fbo f
        | None => ret tt
        end ;;
        free_pixmap_private a
    | None => ret tt
    end
  else ret tt.

(** [glamor_destroy_pixmap], lines 199-204. *)
Definition glamor_destroy_pixmap (pixmap : PixmapPtr) : M bool :=
  glamor_destroy_textured_pixmap pixmap ;;
  fbDestroyPixmap pixmap.

(** Pixmaps and binding records point at each other: the slot of a live
    pixmap, when set, holds the address of a live record whose [container]
    is that pixmap, and the [container] of a live record is a live pixmap
    whose slot holds the address of the record. *)
Definition heaps_consistent (pm : gmap N PixmapRec)
    (pv : gmap N glamor_pixmap_private) : Prop :=
  (forall a px b,
     pm !! a = Some px -> devPrivates px = Some b ->
     exists pp, pv !! b = Some pp /\ container pp = a) /\
  (forall b pp,
     pv !! b = Some pp ->
     exists px, pm !! container pp = Some px /\ devPrivates px = Some b).

Definition bindings_consistent (s : host) : Prop :=
  heaps_consistent (pixmaps s) (pixmap_privates s).

(** What the negotiation of [glamor_init] asks of the collaborators for the
    given flags: as [cooperative], but the event loop is asked only with
    [GLAMOR_USE_SCREEN]. *)
Definition negotiation_passes (P : platform) (A : answers) (fl : Z) : Prop :=
  Z.land fl (Z.lnot GLAMOR_VALID_FLAGS) = 0 /\
  calloc_ok A = true /\
  dixRegisterPrivateKey_screen_ok A = true /\
  dixRegisterPrivateKey_pixmap_ok A = true /\
  (glamor_gl_get_version A <?
     (if GLAMOR_GLES2 P
      then GLAMOR_GL_VERSION_ENCODE P 2 0
      else GLAMOR_GL_VERSION_ENCODE P 1 3)) = false /\
  (GLAMOR_GLES2 P = true ->
   glamor_gl_has_extension A "GL_EXT_texture_format_BGRA8888"%string = true) /\
  (flag_set fl GLAMOR_USE_SCREEN = true ->
   RegisterBlockAndWakeupHandlers_ok A = true).

(** The tables [glamor_init] leaves on success, lines 321-383: each flag
    gates its family of handlers, and in a RENDER build [CreatePicture] and
    [DestroyPicture] are taken whatever the flags. *)
Definition screen_after_init (fl : Z) (scr : ScreenRec) : ScreenRec :=
  if flag_set fl GLAMOR_USE_SCREEN then install_screen_procs scr else scr.

Definition picture_screen_after_init (P : platform) (fl : Z)
    (ps : option PictureScreenRec) : option PictureScreenRec :=
  if RENDER P
  then
    match ps with
    | Some psr =>
        Some (install_picture_lifetime_procs
                (if flag_set fl GLAMOR_USE_PICTURE_SCREEN
                 then install_picture_procs psr
                 else psr))
    | None => None
    end
  else ps.

Definition saved_procs_after_init (P : platform) (fl : Z) (scr : ScreenRec)
    (ps : option PictureScreenRec) : glamor_saved_procs :=
  let sp :=
    if flag_set fl GLAMOR_USE_SCREEN
    then save_screen_procs scr zero_saved_procs
    else zero_saved_procs in
  if RENDER P
  then
    match ps with
    | Some psr =>
        save_picture_lifetime_procs psr
          (if flag_set fl GLAMOR_USE_PICTURE_SCREEN
           then save_picture_procs psr sp
           else sp)
    | None => sp
    end
  else sp.

(** The context record [glamor_init] leaves in the slot on success. *)
Definition screen_private_after_init (P : platform) (A : answers) (fl : Z)
    (scr : ScreenRec) (ps : option PictureScreenRec) (blocks : gmap N unit)
    : glamor_screen_private :=
  {| yInverted := if flag_set fl GLAMOR_INVERTED_Y_AXIS then 1 else 0;
     gl_version_of_dispatch := glamor_gl_get_version A;
     has_pack_invert := glamor_gl_has_extension A "GL_MESA_pack_invert"%string;
     has_fbo_blit :=
       glamor_gl_has_extension A "GL_EXT_framebuffer_blit"%string;
     max_fbo_size := GL_MAX_RENDERBUFFER_SIZE A;
     tick := 0;
     screen_fbo := 0;
     saved_procs := saved_procs_after_init P fl scr ps;
     gl_flavor := if GLAMOR_GLES2 P then GLAMOR_GL_ES2 else GLAMOR_GL_DESKTOP;
     flags := fl;
     address_of_dispatch := unused_address blocks |}.

(** A running server with a software pixmap at address 5, two references
    held on it. *)
Definition shared_host : host :=
  with_pixmaps {[ 5%N := mkPixmap (mkDrawable 32 32 24 32) 128 0 2 None ]}
    running_host.

(** The answers of [good_answers], without memory for a binding record. *)
Definition out_of_memory : answers :=
  {| calloc_ok := false;
     dixRegisterPrivateKey_screen_ok := true;
     dixRegisterPrivateKey_pixmap_ok := true;
     glamor_gl_get_version := 2 * 256 + 1;
     glamor_gl_has_extension := fun _ => true;
     GL_MAX_RENDERBUFFER_SIZE := 4096;
     GLAMOR_DEBUG := None;
     RegisterBlockAndWakeupHandlers_ok := true;
     glamor_create_fbo_answer := Some example_fbo;
     glamor_create_fbo_from_tex_answer := Some other_fbo |}.

(** The server of [example_host] without a picture screen. *)
Definition host_without_render : host :=
  with_picture_screen None example_host.

(** * Properties *)

(** ** Proof steps *)

(** Unfold the monad and the accessors of the host. *)
Ltac unfold_monad :=
  cbv [glamor_get_screen_private glamor_get_pixmap_private dixSetPrivate_screen
       dixSetPrivate_pixmap GetPictureScreenIfSet deref_ps
       load_pixmap load_pixmap_private store_pixmap_private store_pixmap
       calloc_pixmap_private free_pixmap_private
       fbCreatePixmap fbDestroyPixmap ModifyPixmapHeader
       glamor_pixmap_detach_fbo glamor_pixmap_attach_fbo glamor_destroy_fbo
       glamor_create_fbo_from_tex glamor_create_fbo glamor_fbo_expire
       glamor_set_debug_level glamor_init_fail
       calloc_screen_private free_screen_private
       bind ret gets modify emit deref undefined when] in *.

(** Use what is known about a scrutinee, then compute on. *)
Ltac known :=
  match goal with
  | H : ?x = _ |- context [match ?x with _ => _ end] => rewrite H
  | H : ?x = _ |- context [if ?x then _ else _] => rewrite H
  | |- context [<[?k := _]> _ !! ?k] => rewrite lookup_insert_eq
  | |- context [<[?k := _]> (<[?k := _]> _)] => rewrite insert_insert_eq
  | |- context [1 - 1 =? 0] => change (1 - 1 =? 0) with true
  end.
Ltac run := unfold_monad; cbn; repeat (known; cbn).

(** ** Binding a texture to a pixmap *)

Section SetPixmapTexture.
Variables (A : answers) (s : host) (a b : N) (tex_name : Z).
Variables (px : PixmapRec) (pp : glamor_pixmap_private).
Hypothesis pixmap_live : pixmaps s !! a = Some px.
Hypothesis pixmap_bound : devPrivates px = Some b.
Hypothesis record_live : pixmap_privates s !! b = Some pp.

(** C7: when a new render target is attached to a pixmap that has a binding
    record, through [glamor_set_pixmap_texture], the calls are, in this
    order: if the record owns a target, detach it from the record and
    dispose of it; create the new target; attach it.  Afterwards the record
    owns the new target and nothing else; the field of the record holds one
    target at most at any time, by its type. *)
Theorem set_pixmap_texture_detaches_first (new : glamor_pixmap_fbo) :
  glamor_create_fbo_from_tex_answer A = Some new ->
  exists s',
    glamor_set_pixmap_texture A (pixmap_at a) tex_name s = Some (tt, s') /\
    log s' = log s ++
      detach_and_dispose b (fbo pp) ++
      [call_glamor_create_fbo_from_tex
         (width (drawable px)) (height (drawable px)) (depth (drawable px))
         tex_name 0;
       call_glamor_pixmap_attach_fbo (pixmap_at a) new] /\
    pixmap_privates s' =
      <[b := mkPixmapPrivate (container pp) (pixmap_type pp) (Some new)]>
        (pixmap_privates s) /\
    pixmaps s' = pixmaps s.
Proof.
  intros Hnew. destruct s as [scr ps sp k1 k2 bh pm pv dl lg cb].
  cbn in pixmap_live, record_live.
  unfold glamor_set_pixmap_texture.
  destruct (fbo pp) as [old|] eqn:Hown; run;
    (eexists; split; [reflexivity|]); cbn;
    repeat rewrite <- app_assoc; auto.
Qed.

(** C9: when the binding record owns a render target and the creation of
    the new one fails, the old one has been detached and disposed of
    already and nothing is attached: the call returns with the binding
    record owning no render target. *)
Theorem set_pixmap_texture_failure_unbinds (old : glamor_pixmap_fbo) :
  fbo pp = Some old ->
  glamor_create_fbo_from_tex_answer A = None ->
  exists s',
    glamor_set_pixmap_texture A (pixmap_at a) tex_name s = Some (tt, s') /\
    log s' = log s ++
      [call_glamor_pixmap_detach_fbo b;
       call_glamor_destroy_fbo old;
       call_glamor_create_fbo_from_tex
         (width (drawable px)) (height (drawable px)) (depth (drawable px))
         tex_name 0;
       call_ErrorF] /\
    pixmap_privates s' !! b =
      Some (mkPixmapPrivate (container pp) (pixmap_type pp) None) /\
    pixmaps s' = pixmaps s.
Proof.
  intros Hown Hnew. destruct s as [scr ps sp k1 k2 bh pm pv dl lg cb].
  cbn in pixmap_live, record_live.
  unfold glamor_set_pixmap_texture. run.
  eexists; split; [reflexivity|]. cbn.
  repeat rewrite <- app_assoc. rewrite lookup_insert_eq. auto.
Qed.
End SetPixmapTexture.

(** ** Heaps *)

Lemma unused_address_unused {X} (heap : gmap N X) :
  heap !! unused_address heap = None.
Proof. apply not_elem_of_dom, is_fresh. Qed.

Lemma free_after_alloc {X} (heap : gmap N X) (x : X) :
  delete (unused_address heap) (<[unused_address heap := x]> heap) = heap.
Proof. apply delete_insert_id, unused_address_unused. Qed.

(** ** Creating a pixmap *)

(** The test of line 142 fails exactly on the requests the spec calls
    infeasible. *)
Lemma infeasible_test P gp w h d usage :
  (max_fbo_size gp < w \/ max_fbo_size gp < h \/
   glamor_check_fbo_depth P d = false \/ usage = GLAMOR_CREATE_PIXMAP_CPU P) <->
  negb (glamor_check_fbo_size gp w h) || negb (glamor_check_fbo_depth P d)
  || (usage =? GLAMOR_CREATE_PIXMAP_CPU P) = true.
Proof.
  unfold glamor_check_fbo_size.
  rewrite !orb_true_iff, !negb_true_iff, andb_false_iff, Z.eqb_eq,
    !Z.leb_gt.
  tauto.
Qed.

Lemma size_guard w h :
  (32767 <? w) || (32767 <? h) = false <-> w <= 32767 /\ h <= 32767.
Proof. rewrite orb_false_iff, !Z.ltb_ge. tauto. Qed.

(** C4, as amended: a request within the 32767 guard whose width or height
    exceeds the queried maximum, whose depth is not supported or whose usage
    is CPU-forced is answered by the software path alone, on the host as it
    was; and no infeasible request, the ones beyond the guard included,
    creates a binding record: the heap of records is unchanged, nothing is
    asked of the pool, and a returned pixmap has an empty private slot.
    Beyond the guard the null pixmap is returned and the host is left as it
    was. *)
Theorem infeasible_request_is_software_only P A w h d usage s gp :
  screen_devPrivates s = Some gp ->
  (max_fbo_size gp < w \/ max_fbo_size gp < h \/
   glamor_check_fbo_depth P d = false \/ usage = GLAMOR_CREATE_PIXMAP_CPU P) ->
  (w <= 32767 -> h <= 32767 ->
   glamor_create_pixmap P A w h d usage s = fbCreatePixmap P w h d usage s) /\
  (32767 < w \/ 32767 < h ->
   glamor_create_pixmap P A w h d usage s = Some (NullPixmap, s)) /\
  exists p s',
    glamor_create_pixmap P A w h d usage s = Some (p, s') /\
    pixmap_privates s' = pixmap_privates s /\
    log s' = log s /\
    forall a px,
      p = pixmap_at a -> pixmaps s' !! a = Some px -> devPrivates px = None.
Proof.
  intros Hgp Hinf. apply infeasible_test in Hinf.
  destruct s as [scr ps sp k1 k2 bh pm pv dl lg cb]. cbn in Hgp. subst sp.
  unfold glamor_create_pixmap.
  destruct ((32767 <? w) || (32767 <? h)) eqn:Hguard.
  - split; [|split].
    + intros Hw Hh. exfalso.
      pose proof (proj2 (size_guard w h) (conj Hw Hh)). congruence.
    + intros _. run. reflexivity.
    + run. eexists _, _. split; [reflexivity|]. cbn.
      repeat split; auto. discriminate.
  - apply size_guard in Hguard. split; [|split].
    + intros _ _. run. reflexivity.
    + lia.
    + run. eexists _, _. split; [reflexivity|]. cbn.
      repeat split; auto. intros a px [= <-]. rewrite lookup_insert_eq.
      intros [= <-]. reflexivity.
Qed.

(** The test of line 142 passes exactly on the feasible requests. *)
Lemma feasible_test P gp w h d usage :
  (glamor_check_fbo_size gp w h = true /\
   glamor_check_fbo_depth P d = true /\
   usage <> GLAMOR_CREATE_PIXMAP_CPU P) <->
  negb (glamor_check_fbo_size gp w h) || negb (glamor_check_fbo_depth P d)
  || (usage =? GLAMOR_CREATE_PIXMAP_CPU P) = false.
Proof.
  rewrite !orb_false_iff, !negb_false_iff, Z.eqb_neq. tauto.
Qed.

(** C2, as amended: within the guard of line 139 (width and height at most
    32767) the creation returns a live pixmap that no caller held before,
    holding one reference, and never the null pixmap.  The pixmap is
    accelerated when the request is feasible: granted the binding record
    and, for a request of non-zero size, the render target, it is bound to
    a live record of type [GLAMOR_TEXTURE_ONLY] that owns that target.  It
    is software-backed (empty private slot) otherwise: when the request is
    infeasible, when the record is refused, when the target is refused.  A
    pixmap with a binding record was requested feasibly.  Beyond the guard
    the null pixmap is returned. *)
Theorem create_pixmap_valid_within_guard P A w h d usage s gp :
  screen_devPrivates s = Some gp ->
  (w <= 32767 -> h <= 32767 ->
   exists a s' px,
     glamor_create_pixmap P A w h d usage s = Some (pixmap_at a, s') /\
     pixmaps s !! a = None /\
     pixmaps s' !! a = Some px /\
     refcnt px = 1 /\
     (devPrivates px = None \/
      exists b pp,
        devPrivates px = Some b /\
        pixmap_privates s' !! b = Some pp /\
        pixmap_type pp = GLAMOR_TEXTURE_ONLY /\
        glamor_check_fbo_size gp w h = true /\
        glamor_check_fbo_depth P d = true /\
        usage <> GLAMOR_CREATE_PIXMAP_CPU P) /\
     (glamor_check_fbo_size gp w h = true ->
      glamor_check_fbo_depth P d = true ->
      usage <> GLAMOR_CREATE_PIXMAP_CPU P ->
      calloc_ok A = true ->
      (w <> 0 -> h <> 0 ->
       forall f,
         glamor_create_fbo_answer A = Some f ->
         exists b,
           devPrivates px = Some b /\
           pixmap_privates s' !! b =
             Some (mkPixmapPrivate a GLAMOR_TEXTURE_ONLY (Some f))) /\
      (w = 0 \/ h = 0 ->
       exists b,
         devPrivates px = Some b /\
         pixmap_privates s' !! b =
           Some (mkPixmapPrivate a GLAMOR_TEXTURE_ONLY None))) /\
     ((max_fbo_size gp < w \/ max_fbo_size gp < h \/
       glamor_check_fbo_depth P d = false \/
       usage = GLAMOR_CREATE_PIXMAP_CPU P) \/
      calloc_ok A = false \/
      (w <> 0 /\ h <> 0 /\ glamor_create_fbo_answer A = None) ->
      devPrivates px = None)) /\
  (32767 < w \/ 32767 < h ->
   glamor_create_pixmap P A w h d usage s = Some (NullPixmap, s)).
Proof.
  intros Hgp.
  destruct s as [scr ps sp k1 k2 bh pm pv dl lg cb]. cbn in Hgp. subst sp.
  unfold glamor_create_pixmap. split.
  - intros Hw Hh.
    pose proof (proj2 (size_guard w h) (conj Hw Hh)) as Hguard.
    pose proof (unused_address_unused pm) as Hnew.
    pose proof (infeasible_test P gp w h d usage) as Hinf.
    pose proof (feasible_test P gp w h d usage) as Hfeas.
    run.
    destruct (negb (glamor_check_fbo_size gp w h)
              || negb (glamor_check_fbo_depth P d)
              || (usage =? GLAMOR_CREATE_PIXMAP_CPU P)) eqn:Htest; run.
    { eexists _, _, _. split; [reflexivity|]. cbn.
      rewrite lookup_insert_eq. split; [exact Hnew|].
      split; [reflexivity|]. cbn. split; [reflexivity|].
      split; [left; reflexivity|]. split; [|reflexivity].
      intros Hsize Hdepth Hcpu.
      pose proof (proj1 Hfeas (conj Hsize (conj Hdepth Hcpu))) as Habs.
      discriminate Habs. }
    assert (~ (max_fbo_size gp < w \/ max_fbo_size gp < h \/
               glamor_check_fbo_depth P d = false \/
               usage = GLAMOR_CREATE_PIXMAP_CPU P)) as Hnot.
    { intros Habs. apply Hinf in Habs. discriminate Habs. }
    destruct (proj2 Hfeas eq_refl) as (Hsize & Hdepth & Hcpu).
    clear Hinf Hfeas.
    destruct (calloc_ok A) eqn:Hcalloc; run.
    2:{ eexists _, _, _. split; [reflexivity|]. cbn.
        rewrite lookup_insert_eq.
        split.
        { pose proof (unused_address_unused
                        (<[unused_address pm :=
                             mkPixmap (mkDrawable 0 0 d (BitsPerPixel P d))
                               (PixmapBytePad P 0 d) usage 1 None]> pm))
            as Hn.
          apply lookup_insert_None in Hn. tauto. }
        split; [reflexivity|]. cbn. split; [reflexivity|].
        split; [left; reflexivity|]. split; [|reflexivity].
        intros _ _ _ Habs. discriminate Habs. }
    destruct ((w =? 0) || (h =? 0)) eqn:Hzero; run.
    { apply orb_true_iff in Hzero. rewrite !Z.eqb_eq in Hzero.
      eexists _, _, _. split; [reflexivity|]. cbn.
      rewrite !lookup_insert_eq. split; [exact Hnew|].
      split; [reflexivity|]. cbn. split; [reflexivity|].
      split; [|split].
      - right. eexists _, _. split; [reflexivity|].
        split; [apply lookup_insert_eq|]. cbn. auto.
      - intros _ _ _ _. split.
        + intros Hw0 Hh0. exfalso. tauto.
        + intros _. eexists. split; [reflexivity|]. apply lookup_insert_eq.
      - intros [Habs | [Habs | (Hw0 & Hh0 & _)]];
          [contradiction | discriminate Habs | exfalso; tauto]. }
    apply orb_false_iff in Hzero. rewrite !Z.eqb_neq in Hzero.
    destruct (glamor_create_fbo_answer A) as [f0|] eqn:Hfbo; run.
    + eexists _, _, _. split; [reflexivity|]. cbn.
      rewrite !lookup_insert_eq. split; [exact Hnew|].
      split; [reflexivity|]. cbn. split; [reflexivity|].
      split; [|split].
      * right. eexists _, _. split; [reflexivity|].
        split; [apply lookup_insert_eq|]. cbn. auto.
      * intros _ _ _ _. split.
        -- intros _ _ f [= <-]. eexists. split; [reflexivity|].
           apply lookup_insert_eq.
        -- intros Habs. exfalso. tauto.
      * intros [Habs | [Habs | (_ & _ & Habs)]];
          [contradiction | discriminate Habs | discriminate Habs].
    + rewrite !free_after_alloc.
      eexists _, _, _. split; [reflexivity|]. cbn.
      rewrite lookup_insert_eq. split; [exact Hnew|].
      split; [reflexivity|]. cbn. split; [reflexivity|].
      split; [left; reflexivity|]. split; [|reflexivity].
      intros _ _ _ _. split.
      * intros _ _ f Habs. discriminate Habs.
      * intros Habs. exfalso. tauto.
  - intros Hbig.
    assert ((32767 <? w) || (32767 <? h) = true) as Hguard.
    { apply orb_true_iff. rewrite !Z.ltb_lt. exact Hbig. }
    run. reflexivity.
Qed.

(** C6: for a feasible request within the guard, with the binding record
    allocated and both dimensions non-zero, a failed acquisition of the
    render target ends as the software path alone would have ended on the
    same host (but for the recorded call to the pool): the returned pixmap
    is a new software pixmap of the requested size, and neither the
    placeholder nor its binding record is left in the heaps.  And whatever
    the request and the answers, a returned pixmap that has a binding
    record without render target was requested with zero width or zero
    height. *)
Theorem failed_acquire_falls_back_to_software P A w h d usage s gp :
  screen_devPrivates s = Some gp ->
  w <= 32767 -> h <= 32767 ->
  glamor_check_fbo_size gp w h = true ->
  glamor_check_fbo_depth P d = true ->
  usage <> GLAMOR_CREATE_PIXMAP_CPU P ->
  calloc_ok A = true ->
  w <> 0 -> h <> 0 ->
  glamor_create_fbo_answer A = None ->
  (glamor_create_pixmap P A w h d usage s =
     fbCreatePixmap P w h d usage
       (with_log (log s ++ [call_glamor_create_fbo w h d usage]) s) /\
   exists a s',
     glamor_create_pixmap P A w h d usage s = Some (pixmap_at a, s') /\
     pixmaps s' =
       <[a := mkPixmap (mkDrawable w h d (BitsPerPixel P d))
                       (PixmapBytePad P w d) usage 1 None]> (pixmaps s) /\
     pixmap_privates s' = pixmap_privates s) /\
  (forall A' w' h' d' usage' p s' a px b,
     glamor_create_pixmap P A' w' h' d' usage' s = Some (p, s') ->
     p = pixmap_at a ->
     pixmaps s' !! a = Some px ->
     devPrivates px = Some b ->
     exists pp,
       pixmap_privates s' !! b = Some pp /\
       (fbo pp = None -> w' = 0 \/ h' = 0)).
Proof.
  intros Hgp Hw Hh Hsize Hdepth Hcpu Hcalloc Hw0 Hh0 Hfbo.
  destruct s as [scr ps sp k1 k2 bh pm pv dl lg cb]. cbn in Hgp. subst sp.
  split.
  - pose proof (proj2 (size_guard w h) (conj Hw Hh)) as Hguard.
    assert (negb (glamor_check_fbo_size gp w h)
            || negb (glamor_check_fbo_depth P d)
            || (usage =? GLAMOR_CREATE_PIXMAP_CPU P) = false) as Htest.
    { rewrite Hsize, Hdepth. cbn. now apply Z.eqb_neq. }
    assert ((w =? 0) || (h =? 0) = false) as Hzero.
    { apply orb_false_iff. now rewrite !Z.eqb_neq. }
    unfold glamor_create_pixmap. run. rewrite !free_after_alloc.
    split; [reflexivity|]. eexists _, _. split; [reflexivity|]. cbn. auto.
  - clear. intros A' w' h' d' usage' p s' a px b.
    unfold glamor_create_pixmap. run.
    destruct ((32767 <? w') || (32767 <? h')); run.
    { intros [= <- <-]. discriminate. }
    destruct (negb (glamor_check_fbo_size gp w' h')
              || negb (glamor_check_fbo_depth P d')
              || (usage' =? GLAMOR_CREATE_PIXMAP_CPU P)); run.
    { intros [= <- <-] [= <-]. cbn [pixmaps pixmap_privates]. rewrite lookup_insert_eq.
      intros [= <-]. discriminate. }
    destruct (calloc_ok A'); run.
    2:{ intros [= <- <-] [= <-]. cbn [pixmaps pixmap_privates]. rewrite lookup_insert_eq.
        intros [= <-]. discriminate. }
    destruct ((w' =? 0) || (h' =? 0)) eqn:Hzero; run.
    { intros [= <- <-] [= <-]. cbn [pixmaps pixmap_privates]. rewrite !lookup_insert_eq.
      intros [= <-] [= <-]. eexists. split; [apply lookup_insert_eq|]. cbn. intros _.
      apply orb_true_iff in Hzero. rewrite !Z.eqb_eq in Hzero. exact Hzero. }
    destruct (glamor_create_fbo_answer A'); run.
    + intros [= <- <-] [= <-]. cbn [pixmaps pixmap_privates]. rewrite !lookup_insert_eq.
      intros [= <-] [= <-]. eexists. split; [apply lookup_insert_eq|]. cbn. discriminate.
    + rewrite !free_after_alloc.
      intros [= <- <-] [= <-]. cbn [pixmaps pixmap_privates]. rewrite lookup_insert_eq.
      intros [= <-]. discriminate.
Qed.

(** ** Initialisation *)

Ltac branch :=
  match goal with
  | |- context [if ?b then _ else _] => destruct b eqn:?
  | |- context [match ?x with Some _ => _ | None => _ end] => destruct x eqn:?
  end.

(** Every way [glamor_init] can return. *)
Lemma glamor_init_outcome P A fl s r s' :
  glamor_init P A fl s = Some (r, s') ->
  (r = false /\
   screen s' = screen s /\
   picture_screen s' = picture_screen s /\
   block_and_wakeup_handlers s' = block_and_wakeup_handlers s /\
   pixmaps s' = pixmaps s /\
   pixmap_privates s' = pixmap_privates s /\
   context_blocks s' = context_blocks s /\
   (screen_devPrivates s' = None \/
    screen_devPrivates s' = screen_devPrivates s)) \/
  (r = true /\
   Z.land fl (Z.lnot GLAMOR_VALID_FLAGS) = 0 /\
   exists gp,
     screen_devPrivates s' = Some gp /\
     flags gp = fl /\
     address_of_dispatch gp = unused_address (context_blocks s) /\
     context_blocks s' =
       <[unused_address (context_blocks s) := tt]> (context_blocks s) /\
     if flag_set fl GLAMOR_USE_SCREEN
     then screen s' = install_screen_procs (screen s) /\
          save_screen_procs (screen s) (saved_procs gp) = saved_procs gp /\
          block_and_wakeup_handlers s' =
            block_and_wakeup_handlers s ++
              [(P__glamor_block_handler, P__glamor_wakeup_handler,
                unused_address (context_blocks s))]
     else screen s' = screen s /\
          block_and_wakeup_handlers s' = block_and_wakeup_handlers s).
Proof.
  destruct s as [scr [psr|] sp k1 k2 bh pm pv dl lg cb];
  unfold glamor_init, glamor_init_finish, RegisterBlockAndWakeupHandlers,
    dixRegisterPrivateKey_screen, dixRegisterPrivateKey_pixmap;
  (destruct (Z.land fl (Z.lnot GLAMOR_VALID_FLAGS) =? 0) eqn:Hvalid;
    [apply Z.eqb_eq in Hvalid|]);
    destruct (flag_set fl GLAMOR_USE_SCREEN) eqn:Huse;
    repeat (run; try branch);
    intros Hrun; try discriminate Hrun;
    injection Hrun as <- <-; cbn; rewrite ?free_after_alloc;
    solve [ left; repeat split; auto
          | right; repeat split; auto; eexists; repeat split; auto ].
Qed.

(** With cooperative collaborators and recognised flags the initialisation
    succeeds on every host (one with a picture screen, in a RENDER build). *)
Lemma glamor_init_succeeds P A fl s :
  Z.land fl (Z.lnot GLAMOR_VALID_FLAGS) = 0 ->
  cooperative P A ->
  (RENDER P = true -> picture_screen s <> None) ->
  exists s', glamor_init P A fl s = Some (true, s').
Proof.
  intros Hvalid (Hcalloc & Hkey1 & Hkey2 & Hversion & Hext & Hreg) Hps.
  apply Z.eqb_eq in Hvalid.
  destruct s as [scr [psr|] sp k1 k2 bh pm pv dl lg cb];
    unfold glamor_init, glamor_init_finish, RegisterBlockAndWakeupHandlers,
      dixRegisterPrivateKey_screen, dixRegisterPrivateKey_pixmap;
    rewrite Hvalid, Hcalloc, Hkey1, Hkey2, Hreg; cbn [negb];
    (destruct (GLAMOR_GLES2 P) eqn:Hes;
       [rewrite (Hext eq_refl)|]);
    rewrite Hversion;
    (destruct (RENDER P) eqn:Hrender;
       [try (exfalso; now apply (Hps eq_refl))|]);
    repeat (run; try branch); eexists; reflexivity.
Qed.

(** What [glamor_init] returns and leaves in the tables depends on the
    tables and the registered handlers alone. *)
Lemma glamor_init_frame P A fl s t :
  screen s = screen t ->
  picture_screen s = picture_screen t ->
  block_and_wakeup_handlers s = block_and_wakeup_handlers t ->
  context_blocks s = context_blocks t ->
  match glamor_init P A fl s, glamor_init P A fl t with
  | Some (r, s'), Some (r', t') =>
      r = r' /\
      screen s' = screen t' /\
      picture_screen s' = picture_screen t' /\
      block_and_wakeup_handlers s' = block_and_wakeup_handlers t' /\
      (r = true -> screen_devPrivates s' = screen_devPrivates t')
  | None, None => True
  | _, _ => False
  end.
Proof.
  destruct s as [scr [psr|] sp k1 k2 bh pm pv dl lg cb];
  destruct t as [scr' ps' sp' k1' k2' bh' pm' pv' dl' lg' cb'];
  cbn; intros <- <- <- <-;
  unfold glamor_init, glamor_init_finish, RegisterBlockAndWakeupHandlers,
    dixRegisterPrivateKey_screen, dixRegisterPrivateKey_pixmap;
  destruct (Z.land fl (Z.lnot GLAMOR_VALID_FLAGS) =? 0);
  destruct (calloc_ok A);
  destruct (dixRegisterPrivateKey_screen_ok A);
  destruct (dixRegisterPrivateKey_pixmap_ok A);
  destruct (GLAMOR_GLES2 P);
  destruct (RENDER P);
  repeat (run; try branch); cbn; repeat split; auto; discriminate.
Qed.

(** C3: an initialisation called with a bit outside [GLAMOR_VALID_FLAGS]
    returns failure at once; and whenever the initialisation returns
    failure (bad flags, no memory, a private key refused, GL too old, an
    extension missing, the handlers refused), the handler tables of the
    screen and of the picture screen and the registered handlers are what
    they were, a screen whose side-table slot was empty has it empty again,
    and an initialisation tried next with recognised flags and cooperative
    collaborators succeeds, with the tables, the registered handlers and
    the context record it would have produced had the failed attempt never
    been made. *)
Theorem failed_init_installs_nothing P A fl s :
  (Z.land fl (Z.lnot GLAMOR_VALID_FLAGS) <> 0 ->
   glamor_init P A fl s = Some (false, with_log (log s ++ [call_ErrorF]) s)) /\
  (forall s',
     glamor_init P A fl s = Some (false, s') ->
     screen s' = screen s /\
     picture_screen s' = picture_screen s /\
     block_and_wakeup_handlers s' = block_and_wakeup_handlers s /\
     (screen_devPrivates s = None -> screen_devPrivates s' = None) /\
     forall A' fl',
       Z.land fl' (Z.lnot GLAMOR_VALID_FLAGS) = 0 ->
       cooperative P A' ->
       (RENDER P = true -> picture_screen s <> None) ->
       exists s'' t'',
         glamor_init P A' fl' s' = Some (true, s'') /\
         glamor_init P A' fl' s = Some (true, t'') /\
         screen s'' = screen t'' /\
         picture_screen s'' = picture_screen t'' /\
         block_and_wakeup_handlers s'' = block_and_wakeup_handlers t'' /\
         screen_devPrivates s'' = screen_devPrivates t'').
Proof.
  split.
  - intros Hbad. apply Z.eqb_neq in Hbad.
    unfold glamor_init. rewrite Hbad. reflexivity.
  - intros s' Hfail.
    destruct (glamor_init_outcome _ _ _ _ _ _ Hfail)
      as [(_ & Hscr & Hps & Hbh & _ & _ & Hcb & Hslot) | (Habs & _)];
      [|discriminate Habs].
    repeat split; auto.
    + intros Hclean. destruct Hslot; congruence.
    + intros A' fl' Hvalid Hcoop Hrender.
      destruct (glamor_init_succeeds P A' fl' s' Hvalid Hcoop)
        as [s'' Hretry]; [now rewrite Hps|].
      destruct (glamor_init_succeeds P A' fl' s Hvalid Hcoop Hrender)
        as [t'' Hfirst].
      pose proof (glamor_init_frame P A' fl' s' s Hscr Hps Hbh Hcb)
        as Hframe.
      rewrite Hretry, Hfirst in Hframe.
      destruct Hframe as (_ & Hscr' & Hps' & Hbh' & Hslot').
      exists s'', t''. repeat split; auto.
Qed.

(** ** The per-frame tick *)

(** C5, as amended: an initialisation that succeeds with
    [GLAMOR_USE_SCREEN] registers [_glamor_block_handler] with the event
    loop, after the handlers that were registered before, with the dispatch
    table of the new context record as its data; the block of that record
    is live.  Called with a pointer into a live context record, that
    handler flushes the pending GL commands and then waits for their
    completion, and that is all: it does not call the pool's expire.  So
    does the tick of the event loop right after the initialisation.  The
    expire call is made by the exported [glamor_block_handler], which
    advances the tick counter, flushes, waits, and then calls expire for the
    new tick. *)
Theorem registered_block_handler_flushes_and_finishes P A fl s s' :
  glamor_init P A fl s = Some (true, s') ->
  flag_set fl GLAMOR_USE_SCREEN = true ->
  (exists gp,
     screen_devPrivates s' = Some gp /\
     context_blocks s' !! address_of_dispatch gp = Some tt /\
     block_and_wakeup_handlers s' =
       block_and_wakeup_handlers s ++
         [(P__glamor_block_handler, P__glamor_wakeup_handler,
           address_of_dispatch gp)]) /\
  (forall t data,
     context_blocks t !! data = Some tt ->
     run_block_handler P__glamor_block_handler data t =
       Some (tt, with_log (log t ++ [glFlush; glFinish]) t)) /\
  (block_and_wakeup_handlers s = [] ->
   BlockHandler s' = Some (tt, with_log (log s' ++ [glFlush; glFinish]) s')) /\
  (forall t gp,
     screen_devPrivates t = Some gp ->
     glamor_block_handler t =
       Some (tt,
             with_log
               (log t ++ [glFlush; glFinish;
                          call_glamor_fbo_expire ((tick gp + 1) mod 2 ^ 32)])
               (with_screen_devPrivates
                  (Some (set_tick ((tick gp + 1) mod 2 ^ 32) gp)) t))).
Proof.
  intros Hinit Huse.
  assert (forall t data,
            context_blocks t !! data = Some tt ->
            run_block_handler P__glamor_block_handler data t =
              Some (tt, with_log (log t ++ [glFlush; glFinish]) t))
    as Hbody.
  { intros [scr ps sp k1 k2 bh pm pv dl lg cb] data Hlive.
    cbn in Hlive. cbn. unfold _glamor_block_handler. run.
    now rewrite <- app_assoc. }
  destruct (glamor_init_outcome _ _ _ _ _ _ Hinit)
    as [(Habs & _) | (_ & _ & gp & Hslot & _ & Haddr & Hcb & Hreg)];
    [discriminate Habs|].
  rewrite Huse in Hreg. destruct Hreg as (_ & _ & Hbh).
  rewrite <- Haddr in Hbh.
  assert (context_blocks s' !! address_of_dispatch gp = Some tt) as Hlive.
  { rewrite Hcb, Haddr. apply lookup_insert_eq. }
  split; [exists gp; auto|]. split; [exact Hbody|]. split.
  - intros Hnone. rewrite Hnone in Hbh. cbn in Hbh.
    unfold BlockHandler, bind, gets. rewrite Hbh.
    cbn [run_block_handlers]. unfold bind. rewrite (Hbody _ _ Hlive).
    reflexivity.
  - intros [scr ps sp k1 k2 bh pm pv dl lg cb] gp' Hgp. cbn in Hgp. subst sp.
    unfold glamor_block_handler. run. now rewrite <- !app_assoc.
Qed.

(** ** Teardown *)

(** C8: [glamor_close_screen] first puts the saved handlers back and
    releases the context record, recording the calls of the finalisers and
    no call of a [CloseScreen] handler.  If [GLAMOR_USE_SCREEN] was among
    the flags of the context, the [CloseScreen] slot then holds the saved
    handler again, that handler is called, and its result is the result of
    the teardown; otherwise the teardown returns success and calls no
    handler. *)
Theorem close_screen_chains_to_saved_handler P idx s gp :
  screen_devPrivates s = Some gp ->
  exists s1,
    glamor_close_screen_restore P s = Some (flags gp, s1) /\
    screen_devPrivates s1 = None /\
    log s1 = log s ++
      [call_glamor_glyphs_fini] ++
      (if RENDER P then [call_glamor_fini_composite_shaders] else []) ++
      [call_glamor_fini_pixmap_fbo; call_glamor_fini_solid_shader;
       call_glamor_fini_tile_shader; call_glamor_fini_putimage_shaders;
       call_glamor_fini_finish_access_shaders; call_glamor_pixmap_fini] /\
    (flag_set (flags gp) GLAMOR_USE_SCREEN = true ->
     CloseScreen (screen s1) = close_screen (saved_procs gp) /\
     glamor_close_screen P idx s =
       call_CloseScreen P (close_screen (saved_procs gp)) idx
         (with_log
            (log s1 ++
               [call_screen_CloseScreen (close_screen (saved_procs gp)) idx])
            s1)) /\
    (flag_set (flags gp) GLAMOR_USE_SCREEN = false ->
     glamor_close_screen P idx s = Some (true, s1)).
Proof.
  intros Hgp.
  destruct s as [scr [psr|] sp k1 k2 bh pm pv dl lg cb]; cbn in Hgp; subst sp;
    unfold glamor_close_screen, glamor_close_screen_restore,
      glamor_release_screen_priv;
    destruct (flag_set (flags gp) GLAMOR_USE_SCREEN) eqn:Huse;
    destruct (RENDER P) eqn:Hrender;
    destruct (flag_set (flags gp) GLAMOR_USE_PICTURE_SCREEN) eqn:Hpict;
    run; eexists; (split; [reflexivity|]); cbn;
    rewrite <- ?app_assoc; cbn;
    (split; [reflexivity|]); (split; [reflexivity|]);
    split; intros Hflag; try discriminate Hflag; auto.
Qed.

(** The close-screen path empties the side-table slot of an initialised
    screen. *)
Lemma close_screen_restore_releases P s gp :
  screen_devPrivates s = Some gp ->
  exists s1,
    glamor_close_screen_restore P s = Some (flags gp, s1) /\
    screen_devPrivates s1 = None.
Proof.
  intros Hgp.
  destruct s as [scr [psr|] sp k1 k2 bh pm pv dl lg cb]; cbn in Hgp; subst sp;
    unfold glamor_close_screen_restore, glamor_release_screen_priv;
    destruct (flag_set (flags gp) GLAMOR_USE_SCREEN) eqn:Huse;
    destruct (RENDER P) eqn:Hrender;
    destruct (flag_set (flags gp) GLAMOR_USE_PICTURE_SCREEN) eqn:Hpict;
    run; eexists; split; reflexivity.
Qed.

(** C10: [glamor_fini] returns without having changed anything: for every
    host it yields the very same host (handler tables, side-table slot,
    heaps, registrations, log), and it cannot crash.  So on a screen that
    was initialised the context record is still in its slot after
    [glamor_fini]; it is the close-screen path that empties the slot. *)
Theorem glamor_fini_leaves_host_unchanged (s : host) :
  glamor_fini s = Some (tt, s) /\
  forall P A fl s1,
    glamor_init P A fl s = Some (true, s1) ->
    exists gp s2,
      glamor_fini s1 = Some (tt, s1) /\
      screen_devPrivates s1 = Some gp /\
      glamor_close_screen_restore P s1 = Some (fl, s2) /\
      screen_devPrivates s2 = None.
Proof.
  split; [reflexivity|].
  intros P A fl s1 Hinit.
  destruct (glamor_init_outcome _ _ _ _ _ _ Hinit)
    as [(Habs & _) | (_ & _ & gp & Hslot & Hfl & _)]; [discriminate Habs|].
  destruct (close_screen_restore_releases P s1 gp Hslot) as (s2 & Hclose & Hnone).
  exists gp, s2. rewrite Hfl in Hclose. auto.
Qed.

(** What is left of the screen's table when the handlers saved at
    installation are written back over the installed ones: every slot but
    [GetImage] has its old handler. *)
Lemma restore_after_install_screen (scr : ScreenRec) (sp : glamor_saved_procs) :
  restore_screen_procs (save_screen_procs scr sp) (install_screen_procs scr) =
  {| CloseScreen := CloseScreen scr;
     CreateGC := CreateGC scr;
     CreatePixmap := CreatePixmap scr;
     DestroyPixmap := DestroyPixmap scr;
     GetSpans := GetSpans scr;
     GetImage := P_glamor_get_image;
     ChangeWindowAttributes := ChangeWindowAttributes scr;
     CopyWindow := CopyWindow scr;
     BitmapToRegion := BitmapToRegion scr |}.
Proof. reflexivity. Qed.

(** The same for the picture screen, with both groups of handlers installed
    and saved: [AddTraps], [UnrealizeGlyph] and [DestroyPicture] keep
    glamor's handlers. *)
Lemma restore_after_install_picture (ps : PictureScreenRec)
    (sp : glamor_saved_procs) :
  restore_picture_procs
    (save_picture_lifetime_procs (install_picture_procs ps)
       (save_picture_procs ps sp))
    (install_picture_lifetime_procs (install_picture_procs ps)) =
  {| Composite := Composite ps;
     Trapezoids := Trapezoids ps;
     Glyphs := Glyphs ps;
     Triangles := Triangles ps;
     AddTraps := P_glamor_add_traps;
     UnrealizeGlyph := P_glamor_glyph_unrealize;
     CreatePicture := CreatePicture ps;
     DestroyPicture := P_glamor_destroy_picture |}.
Proof. reflexivity. Qed.

(** C1, on the code: with both selectors set, initialisation followed at
    once by [glamor_close_screen] (the chained handler changing nothing)
    does not give the tables back as they were: [GetImage], [AddTraps],
    [UnrealizeGlyph] and [DestroyPicture] still hold glamor's handlers,
    although the old ones were saved; the other slots hold the handlers of
    the host again.  With [GLAMOR_USE_SCREEN] alone, [CreatePicture] and
    [DestroyPicture], installed whatever the flags, both stay glamor's. *)
Theorem close_screen_leaves_glamor_handlers_installed :
  (exists s1 s2,
     glamor_init example_platform good_answers
       (Z.lor GLAMOR_USE_SCREEN GLAMOR_USE_PICTURE_SCREEN) example_host =
       Some (true, s1) /\
     glamor_close_screen example_platform 0 s1 = Some (true, s2) /\
     screen s2 =
       mkScreenRec (host_proc 1) (host_proc 2) (host_proc 3) (host_proc 4)
                   (host_proc 5) P_glamor_get_image (host_proc 7)
                   (host_proc 8) (host_proc 9) /\
     picture_screen s2 =
       Some (mkPictureScreenRec (host_proc 10) (host_proc 11) (host_proc 12)
               (host_proc 13) P_glamor_add_traps P_glamor_glyph_unrealize
               (host_proc 16) P_glamor_destroy_picture) /\
     screen s2 <> screen example_host /\
     picture_screen s2 <> picture_screen example_host) /\
  (exists s1 s2,
     glamor_init example_platform good_answers GLAMOR_USE_SCREEN
       example_host = Some (true, s1) /\
     glamor_close_screen example_platform 0 s1 = Some (true, s2) /\
     GetImage (screen s2) = P_glamor_get_image /\
     picture_screen s2 =
       Some (mkPictureScreenRec (host_proc 10) (host_proc 11) (host_proc 12)
               (host_proc 13) (host_proc 14) (host_proc 15)
               P_glamor_create_picture P_glamor_destroy_picture)).
Proof.
  split.
  - eexists _, _. split; [vm_compute; reflexivity|].
    split; [vm_compute; reflexivity|]. cbn.
    repeat split; discriminate.
  - eexists _, _. split; [vm_compute; reflexivity|].
    split; [vm_compute; reflexivity|]. cbn. split; reflexivity.
Qed.

(** ** Where the code departs from the specification *)

(** C2 as stated fails: a request 32768 wide gets the null pixmap. *)
Lemma create_pixmap_returns_null_beyond_guard :
  glamor_create_pixmap example_platform good_answers 32768 1 24 0
    running_host = Some (NullPixmap, running_host).
Proof. reflexivity. Qed.

(** C4 as stated fails: a request 40000 wide exceeds the largest render
    target, 4096, and is not handed to the software path; the null pixmap
    comes back and no pixmap is created. *)
Lemma oversized_request_is_not_delegated :
  max_fbo_size example_screen_private < 40000 /\
  screen_devPrivates running_host = Some example_screen_private /\
  glamor_create_pixmap example_platform good_answers 40000 32 24 0
    running_host = Some (NullPixmap, running_host) /\
  glamor_create_pixmap example_platform good_answers 40000 32 24 0
    running_host <>
  fbCreatePixmap example_platform 40000 32 24 0 running_host.
Proof.
  split; [reflexivity|]. split; [reflexivity|]. split; [reflexivity|].
  vm_compute. discriminate.
Qed.

(** C5 as stated fails: after an initialisation with [GLAMOR_USE_SCREEN],
    a tick of the event loop runs the registered handler, which flushes and
    finishes; no call of the pool's expire is made. *)
Lemma registered_block_handler_does_not_expire :
  exists s1 s2,
    glamor_init example_platform good_answers GLAMOR_USE_SCREEN example_host =
      Some (true, s1) /\
    block_and_wakeup_handlers s1 =
      [(P__glamor_block_handler, P__glamor_wakeup_handler, 0%N)] /\
    BlockHandler s1 = Some (tt, s2) /\
    log s2 = log s1 ++ [glFlush; glFinish] /\
    forall t, ~ In (call_glamor_fbo_expire t) (log s2).
Proof.
  eexists _, _. split; [vm_compute; reflexivity|].
  split; [reflexivity|]. split; [vm_compute; reflexivity|].
  split; [reflexivity|].
  intros t Hin. cbn in Hin.
  repeat (destruct Hin as [Hin | Hin]; [discriminate Hin|]). exact Hin.
Qed.

(** ** The theorems at work on the concrete server *)

Lemma set_pixmap_texture_detaches_first_witness :
  exists s',
    glamor_set_pixmap_texture good_answers (pixmap_at 5) 7 bound_host =
      Some (tt, s') /\
    log s' =
      log bound_host ++
        [call_glamor_pixmap_detach_fbo 9;
         call_glamor_destroy_fbo example_fbo;
         call_glamor_create_fbo_from_tex 32 32 24 7 0;
         call_glamor_pixmap_attach_fbo (pixmap_at 5) other_fbo] /\
    pixmap_privates s' =
      <[9%N := mkPixmapPrivate 5%N GLAMOR_TEXTURE_ONLY (Some other_fbo)]>
        (pixmap_privates bound_host) /\
    pixmaps s' = pixmaps bound_host.
Proof.
  apply (set_pixmap_texture_detaches_first good_answers bound_host 5 9 7
           (mkPixmap (mkDrawable 32 32 24 32) 128 0 1 (Some 9%N))
           (mkPixmapPrivate 5%N GLAMOR_TEXTURE_ONLY (Some example_fbo)));
    reflexivity.
Defined.

Lemma set_pixmap_texture_failure_unbinds_witness :
  exists s',
    glamor_set_pixmap_texture pool_exhausted (pixmap_at 5) 7 bound_host =
      Some (tt, s') /\
    log s' =
      log bound_host ++
        [call_glamor_pixmap_detach_fbo 9;
         call_glamor_destroy_fbo example_fbo;
         call_glamor_create_fbo_from_tex 32 32 24 7 0;
         call_ErrorF] /\
    pixmap_privates s' !! 9%N =
      Some (mkPixmapPrivate 5%N GLAMOR_TEXTURE_ONLY None) /\
    pixmaps s' = pixmaps bound_host.
Proof.
  apply (set_pixmap_texture_failure_unbinds pool_exhausted bound_host 5 9 7
           (mkPixmap (mkDrawable 32 32 24 32) 128 0 1 (Some 9%N))
           (mkPixmapPrivate 5%N GLAMOR_TEXTURE_ONLY (Some example_fbo)));
    reflexivity.
Defined.

Lemma infeasible_request_is_software_only_witness :
  glamor_create_pixmap example_platform good_answers 5000 32 24 0
    running_host =
  fbCreatePixmap example_platform 5000 32 24 0 running_host.
Proof.
  refine (proj1 (infeasible_request_is_software_only example_platform
                   good_answers 5000 32 24 0 running_host
                   example_screen_private _ _) _ _).
  - reflexivity.
  - left. reflexivity.
  - lia.
  - lia.
Defined.

Lemma create_pixmap_valid_within_guard_witness :
  exists a s' px b,
    glamor_create_pixmap example_platform good_answers 32 32 24 0
      running_host = Some (pixmap_at a, s') /\
    pixmaps running_host !! a = None /\
    pixmaps s' !! a = Some px /\
    refcnt px = 1 /\
    devPrivates px = Some b /\
    pixmap_privates s' !! b =
      Some (mkPixmapPrivate a GLAMOR_TEXTURE_ONLY (Some example_fbo)).
Proof.
  assert (32 <= 32767) as Hw by lia.
  assert (32 <> 0) as Hw0 by lia.
  assert (0 <> GLAMOR_CREATE_PIXMAP_CPU example_platform) as Hcpu
    by discriminate.
  destruct (proj1 (create_pixmap_valid_within_guard example_platform
                     good_answers 32 32 24 0 running_host
                     example_screen_private eq_refl) Hw Hw)
    as (a & s' & px & Hrun & Hnew & Hlive & Hcount & _ & Hacc & _).
  destruct (proj1 (Hacc eq_refl eq_refl Hcpu eq_refl) Hw0 Hw0 example_fbo
              eq_refl) as (b & Hslot & Hrec).
  exists a, s', px, b. auto 10.
Defined.

Lemma failed_acquire_falls_back_to_software_witness :
  glamor_create_pixmap example_platform pool_exhausted 32 32 24 0
    running_host =
  fbCreatePixmap example_platform 32 32 24 0
    (with_log (log running_host ++ [call_glamor_create_fbo 32 32 24 0])
       running_host).
Proof.
  refine (proj1 (proj1 (failed_acquire_falls_back_to_software
                          example_platform pool_exhausted 32 32 24 0
                          running_host example_screen_private
                          _ _ _ _ _ _ _ _ _ _)));
    first [reflexivity | lia | discriminate].
Defined.

Lemma failed_init_installs_nothing_witness :
  exists s',
    glamor_init example_platform old_gl GLAMOR_USE_SCREEN example_host =
      Some (false, s') /\
    screen s' = screen example_host /\
    picture_screen s' = picture_screen example_host /\
    block_and_wakeup_handlers s' = block_and_wakeup_handlers example_host /\
    screen_devPrivates s' = None /\
    exists s'' t'',
      glamor_init example_platform good_answers GLAMOR_USE_SCREEN s' =
        Some (true, s'') /\
      glamor_init example_platform good_answers GLAMOR_USE_SCREEN
        example_host = Some (true, t'') /\
      screen s'' = screen t'' /\
      picture_screen s'' = picture_screen t'' /\
      block_and_wakeup_handlers s'' = block_and_wakeup_handlers t'' /\
      screen_devPrivates s'' = screen_devPrivates t''.
Proof.
  eexists. split; [vm_compute; reflexivity|].
  destruct (proj2 (failed_init_installs_nothing example_platform old_gl
                     GLAMOR_USE_SCREEN example_host) _ eq_refl)
    as (Hscr & Hps & Hbh & Hslot & Hretry).
  split; [exact Hscr|]. split; [exact Hps|]. split; [exact Hbh|].
  split; [exact (Hslot eq_refl)|].
  apply Hretry.
  - reflexivity.
  - repeat split; try reflexivity; discriminate.
  - discriminate.
Defined.

Lemma registered_block_handler_flushes_and_finishes_witness :
  exists s' gp,
    glamor_init example_platform good_answers GLAMOR_USE_SCREEN example_host =
      Some (true, s') /\
    screen_devPrivates s' = Some gp /\
    context_blocks s' !! address_of_dispatch gp = Some tt /\
    block_and_wakeup_handlers s' =
      [(P__glamor_block_handler, P__glamor_wakeup_handler,
        address_of_dispatch gp)] /\
    run_block_handler P__glamor_block_handler (address_of_dispatch gp) s' =
      Some (tt, with_log (log s' ++ [glFlush; glFinish]) s') /\
    BlockHandler s' = Some (tt, with_log (log s' ++ [glFlush; glFinish]) s').
Proof.
  assert (exists s',
            glamor_init example_platform good_answers GLAMOR_USE_SCREEN
              example_host = Some (true, s')) as (s' & Hinit)
    by (eexists; vm_compute; reflexivity).
  destruct (registered_block_handler_flushes_and_finishes example_platform
              good_answers GLAMOR_USE_SCREEN example_host s' Hinit eq_refl)
    as ((gp & Hslot & Hlive & Hbh) & Hbody & Htick & _).
  exists s', gp.
  split; [exact Hinit|]. split; [exact Hslot|]. split; [exact Hlive|].
  split; [exact Hbh|]. split; [exact (Hbody s' _ Hlive)|].
  exact (Htick eq_refl).
Defined.

Lemma close_screen_chains_to_saved_handler_witness :
  exists s1,
    glamor_close_screen_restore example_platform running_host =
      Some (GLAMOR_USE_SCREEN, s1) /\
    CloseScreen (screen s1) = host_proc 1 /\
    glamor_close_screen example_platform 0 running_host =
      call_CloseScreen example_platform (host_proc 1) 0
        (with_log (log s1 ++ [call_screen_CloseScreen (host_proc 1) 0]) s1).
Proof.
  destruct (close_screen_chains_to_saved_handler example_platform 0
              running_host example_screen_private eq_refl)
    as (s1 & Hrestore & _ & _ & Hchain & _).
  exists s1. split; [exact Hrestore|]. exact (Hchain eq_refl).
Defined.

Lemma glamor_fini_leaves_host_unchanged_witness :
  glamor_fini running_host = Some (tt, running_host) /\
  exists s1 gp s2,
    glamor_init example_platform good_answers GLAMOR_USE_SCREEN example_host =
      Some (true, s1) /\
    glamor_fini s1 = Some (tt, s1) /\
    screen_devPrivates s1 = Some gp /\
    glamor_close_screen_restore example_platform s1 =
      Some (GLAMOR_USE_SCREEN, s2) /\
    screen_devPrivates s2 = None.
Proof.
  split; [exact (proj1 (glamor_fini_leaves_host_unchanged running_host))|].
  assert (exists s1,
            glamor_init example_platform good_answers GLAMOR_USE_SCREEN
              example_host = Some (true, s1)) as [s1 Hinit]
    by (eexists; vm_compute; reflexivity).
  destruct (proj2 (glamor_fini_leaves_host_unchanged example_host)
              example_platform good_answers GLAMOR_USE_SCREEN s1 Hinit)
    as (gp & s2 & Hfini & Hslot & Hclose & Hnone).
  exists s1, gp, s2. auto.
Defined.

(** * More of glamor.c *)

(** ** The type of a pixmap *)

(** X1: [glamor_set_pixmap_type] on a live pixmap that has no binding
    record allocates one, at an address no record had, makes it the
    pixmap's record (slot and [container] point at each other), gives it
    the requested type and no render target, and changes nothing else. *)
Theorem set_pixmap_type_creates_record A s a px type :
  pixmaps s !! a = Some px ->
  devPrivates px = None ->
  calloc_ok A = true ->
  exists s' b,
    glamor_set_pixmap_type A (pixmap_at a) type s = Some (tt, s') /\
    pixmap_privates s !! b = None /\
    pixmap_privates s' =
      <[b := mkPixmapPrivate a type None]> (pixmap_privates s) /\
    pixmaps s' =
      <[a := mkPixmap (drawable px) (devKind px) (usage_hint px) (refcnt px)
                      (Some b)]> (pixmaps s) /\
    log s' = log s /\
    screen_devPrivates s' = screen_devPrivates s /\
    screen s' = screen s.
Proof.
  intros Hpix Hslot Hcalloc.
  destruct s as [scr ps sp k1 k2 bh pm pv dl lg cb]. cbn in Hpix.
  unfold glamor_set_pixmap_type. run.
  eexists _, _. split; [reflexivity|]. cbn.
  split; [apply unused_address_unused|]. auto.
Qed.

(** X2: on a pixmap that has a binding record, [glamor_set_pixmap_type]
    allocates nothing and changes the type alone: the render target the
    record owns and its [container] stay.  Two calls in a row leave what
    the second alone leaves. *)
Theorem set_pixmap_type_keeps_binding A s a px b pp type :
  pixmaps s !! a = Some px ->
  devPrivates px = Some b ->
  pixmap_privates s !! b = Some pp ->
  glamor_set_pixmap_type A (pixmap_at a) type s =
    Some (tt, with_pixmap_privates
                (<[b := mkPixmapPrivate (container pp) type (fbo pp)]>
                   (pixmap_privates s)) s) /\
  forall A' type',
    (glamor_set_pixmap_type A' (pixmap_at a) type' ;;
     glamor_set_pixmap_type A (pixmap_at a) type) s =
    glamor_set_pixmap_type A (pixmap_at a) type s.
Proof.
  intros Hpix Hslot Hrec.
  destruct s as [scr ps sp k1 k2 bh pm pv dl lg cb]. cbn in Hpix, Hrec.
  unfold glamor_set_pixmap_type. split; [|intros A' type']; run; reflexivity.
Qed.

(** X3: the result of [calloc] is not tested in [glamor_set_pixmap_type]:
    on a live pixmap without binding record, when the allocation fails, the
    null record is dereferenced (line 75) and the call does not return. *)
Theorem set_pixmap_type_dereferences_failed_calloc A s a px type :
  pixmaps s !! a = Some px ->
  devPrivates px = None ->
  calloc_ok A = false ->
  glamor_set_pixmap_type A (pixmap_at a) type s = None.
Proof.
  intros Hpix Hslot Hcalloc.
  destruct s as [scr ps sp k1 k2 bh pm pv dl lg cb]. cbn in Hpix.
  unfold glamor_set_pixmap_type. run. reflexivity.
Qed.

(** ** Textures and the screen pixmap *)

(** X4: [glamor_set_pixmap_texture] dereferences the binding record
    without testing it (line 94): on a live pixmap without record the call
    does not return, whatever the pool would answer.  Giving the pixmap a
    type first makes it work: the record that [glamor_set_pixmap_type]
    allocates ends owning the new render target, and the pool is asked for
    a target of the pixmap's own width, height and depth. *)
Theorem set_pixmap_texture_needs_record A s a px tex_name :
  pixmaps s !! a = Some px ->
  devPrivates px = None ->
  glamor_set_pixmap_texture A (pixmap_at a) tex_name s = None /\
  forall type new,
    calloc_ok A = true ->
    glamor_create_fbo_from_tex_answer A = Some new ->
    exists s' b,
      (glamor_set_pixmap_type A (pixmap_at a) type ;;
       glamor_set_pixmap_texture A (pixmap_at a) tex_name) s =
        Some (tt, s') /\
      pixmap_privates s !! b = None /\
      pixmap_privates s' =
        <[b := mkPixmapPrivate a type (Some new)]> (pixmap_privates s) /\
      (exists px', pixmaps s' !! a = Some px' /\ devPrivates px' = Some b) /\
      log s' = log s ++
        [call_glamor_create_fbo_from_tex
           (width (drawable px)) (height (drawable px)) (depth (drawable px))
           tex_name 0;
         call_glamor_pixmap_attach_fbo (pixmap_at a) new].
Proof.
  intros Hpix Hslot.
  destruct s as [scr ps sp k1 k2 bh pm pv dl lg cb]. cbn in Hpix.
  split.
  - unfold glamor_set_pixmap_texture. run. reflexivity.
  - intros type new Hcalloc Hnew.
    unfold glamor_set_pixmap_type, glamor_set_pixmap_texture. run.
    eexists _, _. split; [reflexivity|]. cbn.
    split; [apply unused_address_unused|]. split; [reflexivity|].
    split; [eexists; split; [apply lookup_insert_eq|reflexivity]|].
    now rewrite <- app_assoc.
Qed.

(** X5: [glamor_set_screen_pixmap] on a pixmap bound to a render target
    records the framebuffer name of that target as the screen's in the
    context record, sets the width and height of the target to those of
    the pixmap, and changes nothing else: the target keeps its framebuffer,
    texture and depth, the record its type, the context its other members,
    and no call is made. *)
Theorem set_screen_pixmap_records_target s a px b pp f gp :
  pixmaps s !! a = Some px ->
  devPrivates px = Some b ->
  pixmap_privates s !! b = Some pp ->
  fbo pp = Some f ->
  screen_devPrivates s = Some gp ->
  glamor_set_screen_pixmap (pixmap_at a) s =
    Some (tt,
          with_pixmap_privates
            (<[b := mkPixmapPrivate (container pp) (pixmap_type pp)
                      (Some (mkFbo (fb f) (tex f) (width (drawable px))
                                   (height (drawable px)) (fbo_depth f)))]>
               (pixmap_privates s))
            (with_screen_devPrivates (Some (set_screen_fbo (fb f) gp)) s)).
Proof.
  intros Hpix Hslot Hrec Hfbo Hgp.
  destruct s as [scr ps sp k1 k2 bh pm pv dl lg cb]. cbn in Hpix, Hrec, Hgp.
  unfold glamor_set_screen_pixmap. run. reflexivity.
Qed.

(** X6: [glamor_set_screen_pixmap] tests none of its pointers: on a live
    pixmap it does not return when the screen has no context record, when
    the pixmap has no binding record, or when the record owns no render
    target. *)
Theorem set_screen_pixmap_requires_bound_pixmap s a px :
  pixmaps s !! a = Some px ->
  (screen_devPrivates s = None \/
   devPrivates px = None \/
   exists b pp,
     devPrivates px = Some b /\
     pixmap_privates s !! b = Some pp /\ fbo pp = None) ->
  glamor_set_screen_pixmap (pixmap_at a) s = None.
Proof.
  intros Hpix Hbad.
  destruct s as [scr ps sp k1 k2 bh pm pv dl lg cb]. cbn in Hpix, Hbad.
  unfold glamor_set_screen_pixmap. run.
  destruct (devPrivates px) as [b|] eqn:Hslot; run; [|reflexivity].
  destruct (pv !! b) as [pp|] eqn:Hrec; run; [|reflexivity].
  destruct (fbo pp) as [f|] eqn:Hfbo; run; [|reflexivity].
  destruct Hbad as [-> | [Hn | (b' & pp' & Hb & Hp & Hf)]];
    [reflexivity | discriminate Hn | congruence].
Qed.

(** ** Destroying a pixmap *)

(** X7: [glamor_destroy_pixmap] on a pixmap that is not down to its last
    reference drops one reference and nothing more: the pixmap stays, its
    binding record and the render target the record owns are not touched,
    no call is made, and TRUE is returned. *)
Theorem destroy_pixmap_drops_one_reference s a px :
  pixmaps s !! a = Some px ->
  refcnt px <> 1 ->
  glamor_destroy_pixmap (pixmap_at a) s =
    Some (true,
          with_pixmaps
            (<[a := mkPixmap (drawable px) (devKind px) (usage_hint px)
                             (refcnt px - 1) (devPrivates px)]> (pixmaps s))
            s).
Proof.
  intros Hpix Hcount.
  destruct s as [scr ps sp k1 k2 bh pm pv dl lg cb]. cbn in Hpix.
  assert ((refcnt px =? 1) = false) as Hone by now apply Z.eqb_neq.
  assert ((refcnt px - 1 =? 0) = false) as Hzero by (apply Z.eqb_neq; lia).
  unfold glamor_destroy_pixmap, glamor_destroy_textured_pixmap. run.
  reflexivity.
Qed.

(** X8: [glamor_destroy_pixmap] on the last reference of a pixmap with a
    binding record detaches the render target from the record, disposes of
    it if there is one, frees the record and frees the pixmap, in this
    order, and returns TRUE: neither the pixmap nor the record is live
    afterwards, and every other pixmap and record is as it was. *)
Theorem destroy_pixmap_releases_binding s a px b pp :
  pixmaps s !! a = Some px ->
  refcnt px = 1 ->
  devPrivates px = Some b ->
  pixmap_privates s !! b = Some pp ->
  glamor_destroy_pixmap (pixmap_at a) s =
    Some (true,
          with_pixmaps (delete a (pixmaps s))
            (with_pixmap_privates (delete b (pixmap_privates s))
               (with_log
                  (log s ++
                     call_glamor_pixmap_detach_fbo b ::
                     match fbo pp with
                     | Some f => [call_glamor_destroy_fbo f]
                     | None => []
                     end)
                  s))).
Proof.
  intros Hpix Hcount Hslot Hrec.
  destruct s as [scr ps sp k1 k2 bh pm pv dl lg cb]. cbn in Hpix, Hrec.
  assert ((refcnt px =? 1) = true) as Hone by now apply Z.eqb_eq.
  assert ((refcnt px - 1 =? 0) = true) as Hzero by (apply Z.eqb_eq; lia).
  unfold glamor_destroy_pixmap, glamor_destroy_textured_pixmap.
  destruct (fbo pp) as [f|] eqn:Hfbo; run;
    rewrite delete_insert_eq, <- ?app_assoc; reflexivity.
Qed.

(** X9: [glamor_destroy_textured_pixmap] alone, on the last reference of a
    pixmap with a binding record, frees the record and leaves the pixmap as
    it was: live, with the address of the freed record still in its slot
    (lines 182-197 do not clear it).  The slot dangles, and pixmaps and
    binding records no longer point at each other. *)
Theorem destroy_textured_pixmap_leaves_dangling_slot s a px b pp :
  pixmaps s !! a = Some px ->
  refcnt px = 1 ->
  devPrivates px = Some b ->
  pixmap_privates s !! b = Some pp ->
  exists s',
    glamor_destroy_textured_pixmap (pixmap_at a) s = Some (tt, s') /\
    pixmaps s' = pixmaps s /\
    pixmap_privates s' = delete b (pixmap_privates s) /\
    pixmaps s' !! a = Some px /\
    pixmap_privates s' !! b = None /\
    ~ bindings_consistent s'.
Proof.
  intros Hpix Hcount Hslot Hrec.
  destruct s as [scr ps sp k1 k2 bh pm pv dl lg cb]. cbn in Hpix, Hrec.
  assert ((refcnt px =? 1) = true) as Hone by now apply Z.eqb_eq.
  unfold glamor_destroy_textured_pixmap.
  destruct (fbo pp) as [f|] eqn:Hfbo; run;
    rewrite delete_insert_eq;
    (eexists; split; [reflexivity|]); cbn;
    (split; [reflexivity|]); (split; [reflexivity|]);
    (split; [exact Hpix|]);
    (split; [apply lookup_delete_eq|]);
    intros [Hbound _]; cbn in Hbound;
    destruct (Hbound a px b Hpix Hslot) as (pp' & Hlive & _);
    rewrite lookup_delete_eq in Hlive; discriminate Hlive.
Qed.

(** ** Pixmaps and binding records point at each other *)

Section HeapsConsistent.
Variables (pm : gmap N PixmapRec) (pv : gmap N glamor_pixmap_private).
Hypothesis consistent : heaps_consistent pm pv.

Lemma consistent_new_unbound a px :
  pm !! a = None -> devPrivates px = None ->
  heaps_consistent (<[a := px]> pm) pv.
Proof.
  destruct consistent as [Hfw Hbw]. intros Hnew Hslot. split.
  - intros a' px' b' Hpx Hb. apply lookup_insert_Some in Hpx.
    destruct Hpx as [[<- <-] | [Hne Hpx]]; [congruence|]. eauto.
  - intros b' pp' Hpp. destruct (Hbw b' pp' Hpp) as (px' & Hpx & Hb).
    exists px'. split; [|exact Hb].
    rewrite lookup_insert_ne; [exact Hpx|]. congruence.
Qed.

Lemma consistent_new_bound a px b pp :
  pm !! a = None -> pv !! b = None ->
  devPrivates px = Some b -> container pp = a ->
  heaps_consistent (<[a := px]> pm) (<[b := pp]> pv).
Proof.
  destruct consistent as [Hfw Hbw]. intros Hnew Hfree Hslot Hcont. split.
  - intros a' px' b' Hpx Hb. apply lookup_insert_Some in Hpx.
    destruct Hpx as [[<- <-] | [Hne Hpx]].
    + exists pp. rewrite Hslot in Hb. injection Hb as <-.
      now rewrite lookup_insert_eq.
    + destruct (Hfw a' px' b' Hpx Hb) as (pp' & Hpp & Hc).
      exists pp'. split; [|exact Hc].
      rewrite lookup_insert_ne; [exact Hpp|]. congruence.
  - intros b' pp' Hpp. apply lookup_insert_Some in Hpp.
    destruct Hpp as [[<- <-] | [Hne Hpp]].
    + exists px. rewrite Hcont. now rewrite lookup_insert_eq.
    + destruct (Hbw b' pp' Hpp) as (px' & Hpx & Hb).
      exists px'. split; [|exact Hb].
      rewrite lookup_insert_ne; [exact Hpx|]. congruence.
Qed.

Lemma consistent_bind_existing a px px' b pp :
  pm !! a = Some px -> devPrivates px = None -> pv !! b = None ->
  devPrivates px' = Some b -> container pp = a ->
  heaps_consistent (<[a := px']> pm) (<[b := pp]> pv).
Proof.
  destruct consistent as [Hfw Hbw]. intros Hpix Hunbound Hfree Hslot Hcont.
  split.
  - intros a' px'' b' Hpx Hb. apply lookup_insert_Some in Hpx.
    destruct Hpx as [[<- <-] | [Hne Hpx]].
    + exists pp. rewrite Hslot in Hb. injection Hb as <-.
      now rewrite lookup_insert_eq.
    + destruct (Hfw a' px'' b' Hpx Hb) as (pp' & Hpp & Hc).
      exists pp'. split; [|exact Hc].
      rewrite lookup_insert_ne; [exact Hpp|]. congruence.
  - intros b' pp' Hpp. apply lookup_insert_Some in Hpp.
    destruct Hpp as [[<- <-] | [Hne Hpp]].
    + exists px'. rewrite Hcont. now rewrite lookup_insert_eq.
    + destruct (Hbw b' pp' Hpp) as (px'' & Hpx & Hb).
      exists px''. split; [|exact Hb].
      rewrite lookup_insert_ne; [exact Hpx|]. congruence.
Qed.

Lemma consistent_update_record b pp pp' :
  pv !! b = Some pp -> container pp' = container pp ->
  heaps_consistent pm (<[b := pp']> pv).
Proof.
  destruct consistent as [Hfw Hbw]. intros Hrec Hcont. split.
  - intros a' px' b' Hpx Hb.
    destruct (Hfw a' px' b' Hpx Hb) as (pp'' & Hpp & Hc).
    destruct (decide (b = b')) as [<- | Hne].
    + exists pp'. rewrite lookup_insert_eq. split; [reflexivity|]. congruence.
    + exists pp''. now rewrite lookup_insert_ne.
  - intros b' pp'' Hpp. apply lookup_insert_Some in Hpp.
    destruct Hpp as [[<- <-] | [Hne Hpp]]; [rewrite Hcont|]; eauto.
Qed.

Lemma consistent_update_pixmap a px px' :
  pm !! a = Some px -> devPrivates px' = devPrivates px ->
  heaps_consistent (<[a := px']> pm) pv.
Proof.
  destruct consistent as [Hfw Hbw]. intros Hpix Hslot. split.
  - intros a' px'' b' Hpx Hb. apply lookup_insert_Some in Hpx.
    destruct Hpx as [[<- <-] | [Hne Hpx]]; [rewrite Hslot in Hb|]; eauto.
  - intros b' pp' Hpp. destruct (Hbw b' pp' Hpp) as (px'' & Hpx & Hb).
    destruct (decide (a = container pp')) as [Heq | Hne].
    + exists px'. rewrite <- Heq, lookup_insert_eq. split; [reflexivity|].
      rewrite <- Heq in Hpx. congruence.
    + exists px''. now rewrite lookup_insert_ne.
Qed.

Lemma consistent_free_unbound a px :
  pm !! a = Some px -> devPrivates px = None ->
  heaps_consistent (delete a pm) pv.
Proof.
  destruct consistent as [Hfw Hbw]. intros Hpix Hslot. split.
  - intros a' px' b' Hpx Hb. apply lookup_delete_Some in Hpx.
    destruct Hpx as [Hne Hpx]. eauto.
  - intros b' pp' Hpp. destruct (Hbw b' pp' Hpp) as (px' & Hpx & Hb).
    exists px'. split; [|exact Hb].
    rewrite lookup_delete_ne; [exact Hpx|]. congruence.
Qed.

Lemma consistent_free_bound a px b :
  pm !! a = Some px -> devPrivates px = Some b ->
  heaps_consistent (delete a pm) (delete b pv).
Proof.
  destruct consistent as [Hfw Hbw]. intros Hpix Hslot.
  destruct (Hfw a px b Hpix Hslot) as (pp & Hpp & Hcont). split.
  - intros a' px' b' Hpx Hb. apply lookup_delete_Some in Hpx.
    destruct Hpx as [Hne Hpx].
    destruct (Hfw a' px' b' Hpx Hb) as (pp' & Hpp' & Hc).
    exists pp'. split; [|exact Hc].
    rewrite lookup_delete_ne; [exact Hpp'|]. congruence.
  - intros b' pp' Hpp'. apply lookup_delete_Some in Hpp'.
    destruct Hpp' as [Hne Hpp'].
    destruct (Hbw b' pp' Hpp') as (px' & Hpx & Hb).
    exists px'. split; [|exact Hb].
    rewrite lookup_delete_ne; [exact Hpx|]. congruence.
Qed.
End HeapsConsistent.

Ltac known_count :=
  match goal with
  | |- context [1 =? 1] => change (1 =? 1) with true
  end.
Ltac run_all := unfold_monad; cbn; repeat (first [known | known_count]; cbn).

(** X10: [glamor_create_pixmap] keeps pixmaps and binding records pointing
    at each other, on every path on which it returns: whatever the request
    and the answers of the collaborators, a host whose heaps are consistent
    is left with consistent heaps. *)
Theorem create_pixmap_keeps_bindings_consistent P A w h d usage s p s' :
  bindings_consistent s ->
  glamor_create_pixmap P A w h d usage s = Some (p, s') ->
  bindings_consistent s'.
Proof.
  destruct s as [scr ps sp k1 k2 bh pm pv dl lg cb].
  unfold bindings_consistent. cbn. intros Hc.
  pose proof (unused_address_unused pm) as Hnew.
  pose proof (unused_address_unused pv) as Hfree.
  unfold glamor_create_pixmap. run.
  destruct ((32767 <? w) || (32767 <? h)); run.
  { intros [= <- <-]. exact Hc. }
  destruct sp as [gp|]; run; [|discriminate].
  destruct (negb (glamor_check_fbo_size gp w h)
            || negb (glamor_check_fbo_depth P d)
            || (usage =? GLAMOR_CREATE_PIXMAP_CPU P)); run.
  { intros [= <- <-]. cbn. now apply consistent_new_unbound. }
  destruct (calloc_ok A); run.
  2:{ intros [= <- <-]. cbn.
      apply consistent_new_unbound;
        [now apply consistent_new_unbound
        |apply unused_address_unused | reflexivity]. }
  destruct ((w =? 0) || (h =? 0)); run.
  { intros [= <- <-]. cbn. now apply consistent_new_bound. }
  destruct (glamor_create_fbo_answer A); run.
  - intros [= <- <-]. cbn. now apply consistent_new_bound.
  - rewrite !free_after_alloc. intros [= <- <-]. cbn.
    now apply consistent_new_unbound.
Qed.

(** X11: on a host whose heaps are consistent, [glamor_destroy_pixmap] on a
    live pixmap always returns, returns TRUE, and leaves the heaps
    consistent: when the last reference goes, the binding record goes with
    the pixmap, and no other pixmap loses its record. *)
Theorem destroy_pixmap_keeps_bindings_consistent s a px :
  bindings_consistent s ->
  pixmaps s !! a = Some px ->
  exists s',
    glamor_destroy_pixmap (pixmap_at a) s = Some (true, s') /\
    bindings_consistent s'.
Proof.
  destruct s as [scr ps sp k1 k2 bh pm pv dl lg cb].
  unfold bindings_consistent. cbn. intros Hc Hpix.
  unfold glamor_destroy_pixmap, glamor_destroy_textured_pixmap.
  destruct (refcnt px =? 1) eqn:Hone.
  - assert ((refcnt px - 1 =? 0) = true) as Hzero.
    { apply Z.eqb_eq in Hone. apply Z.eqb_eq. lia. }
    destruct (devPrivates px) as [b|] eqn:Hslot.
    + destruct (proj1 Hc a px b Hpix Hslot) as (pp & Hrec & _).
      destruct (fbo pp) as [f|] eqn:Hfbo; run_all;
        rewrite delete_insert_eq;
        (eexists; split; [reflexivity|]); cbn;
        exact (consistent_free_bound pm pv Hc a px b Hpix Hslot).
    + run_all. eexists; split; [reflexivity|]. cbn.
      exact (consistent_free_unbound pm pv Hc a px Hpix Hslot).
  - assert ((refcnt px - 1 =? 0) = false) as Hzero.
    { apply Z.eqb_neq in Hone. apply Z.eqb_neq. lia. }
    run_all. eexists; split; [reflexivity|]. cbn.
    now apply (consistent_update_pixmap pm pv Hc a px).
Qed.

(** X12: on a host whose heaps are consistent, [glamor_set_pixmap_type] on
    a live pixmap returns and leaves the heaps consistent, provided memory
    is granted when the pixmap has no binding record yet. *)
Theorem set_pixmap_type_keeps_bindings_consistent A s a px type :
  bindings_consistent s ->
  pixmaps s !! a = Some px ->
  (devPrivates px = None -> calloc_ok A = true) ->
  exists s',
    glamor_set_pixmap_type A (pixmap_at a) type s = Some (tt, s') /\
    bindings_consistent s'.
Proof.
  destruct s as [scr ps sp k1 k2 bh pm pv dl lg cb].
  unfold bindings_consistent. cbn. intros Hc Hpix Hmem.
  unfold glamor_set_pixmap_type.
  destruct (devPrivates px) as [b|] eqn:Hslot.
  - destruct (proj1 Hc a px b Hpix Hslot) as (pp & Hrec & _).
    run. eexists; split; [reflexivity|]. cbn.
    now apply (consistent_update_record pm pv Hc b pp).
  - pose proof (Hmem eq_refl) as Hcalloc.
    pose proof (unused_address_unused pv) as Hfree.
    run. eexists; split; [reflexivity|]. cbn.
    now apply (consistent_bind_existing pm pv Hc a px).
Qed.

(** X13: on a host whose heaps are consistent, [glamor_set_pixmap_texture]
    on a live pixmap with a binding record returns, whether the pool gives
    a render target or not, and leaves the heaps consistent and every
    pixmap as it was. *)
Theorem set_pixmap_texture_keeps_bindings_consistent A s a px b tex_name :
  bindings_consistent s ->
  pixmaps s !! a = Some px ->
  devPrivates px = Some b ->
  exists s',
    glamor_set_pixmap_texture A (pixmap_at a) tex_name s = Some (tt, s') /\
    pixmaps s' = pixmaps s /\
    bindings_consistent s'.
Proof.
  destruct s as [scr ps sp k1 k2 bh pm pv dl lg cb].
  unfold bindings_consistent. cbn. intros Hc Hpix Hslot.
  destruct (proj1 Hc a px b Hpix Hslot) as (pp & Hrec & _).
  unfold glamor_set_pixmap_texture.
  destruct (fbo pp) as [f|] eqn:Hfbo;
    destruct (glamor_create_fbo_from_tex_answer A) as [new|] eqn:Hnew;
    run; (eexists; split; [reflexivity|]); cbn;
    (split; [reflexivity|]);
    first [ exact Hc
          | now apply (consistent_update_record pm pv Hc b pp) ].
Qed.

(** X14: [glamor_set_screen_pixmap] leaves consistent heaps consistent
    whenever it returns, and every pixmap as it was. *)
Theorem set_screen_pixmap_keeps_bindings_consistent s p s' :
  bindings_consistent s ->
  glamor_set_screen_pixmap p s = Some (tt, s') ->
  pixmaps s' = pixmaps s /\ bindings_consistent s'.
Proof.
  destruct s as [scr ps sp k1 k2 bh pm pv dl lg cb].
  unfold bindings_consistent. cbn. intros Hc.
  unfold glamor_set_screen_pixmap.
  destruct p as [|a]; [discriminate|]. run.
  destruct (pm !! a) as [px|] eqn:Hpix; run; [|discriminate].
  destruct (devPrivates px) as [b|] eqn:Hslot; run; [|discriminate].
  destruct (pv !! b) as [pp|] eqn:Hrec; run; [|discriminate].
  destruct (fbo pp) as [f|] eqn:Hfbo; run; [|discriminate].
  destruct sp as [gp|]; run; [|discriminate].
  intros [= <-]. cbn. split; [reflexivity|].
  now apply (consistent_update_record pm pv Hc b pp).
Qed.

(** ** Creating and destroying *)

(** X15: a pixmap created by [glamor_create_pixmap] and destroyed at once
    by [glamor_destroy_pixmap] leaves both heaps as they were before the
    creation, on the software path as on the accelerated one, provided the
    binding record could be allocated whenever the request was feasible:
    no pixmap and no binding record is left behind, and the destruction
    returns TRUE. *)
Theorem create_then_destroy_restores_heaps P A w h d usage s gp :
  screen_devPrivates s = Some gp ->
  w <= 32767 -> h <= 32767 ->
  (calloc_ok A = true \/
   max_fbo_size gp < w \/ max_fbo_size gp < h \/
   glamor_check_fbo_depth P d = false \/ usage = GLAMOR_CREATE_PIXMAP_CPU P) ->
  exists p s1 s2,
    glamor_create_pixmap P A w h d usage s = Some (p, s1) /\
    glamor_destroy_pixmap p s1 = Some (true, s2) /\
    pixmaps s2 = pixmaps s /\
    pixmap_privates s2 = pixmap_privates s /\
    screen_devPrivates s2 = screen_devPrivates s.
Proof.
  intros Hgp Hw Hh Hmem.
  destruct s as [scr ps sp k1 k2 bh pm pv dl lg cb]. cbn in Hgp. subst sp.
  pose proof (proj2 (size_guard w h) (conj Hw Hh)) as Hguard.
  unfold glamor_create_pixmap, glamor_destroy_pixmap,
    glamor_destroy_textured_pixmap.
  destruct (negb (glamor_check_fbo_size gp w h)
            || negb (glamor_check_fbo_depth P d)
            || (usage =? GLAMOR_CREATE_PIXMAP_CPU P)) eqn:Htest.
  { run. eexists _, _, _. split; [reflexivity|]. run_all.
    rewrite free_after_alloc. auto. }
  destruct Hmem as [Hcalloc | Hinf];
    [|apply infeasible_test in Hinf; congruence].
  destruct ((w =? 0) || (h =? 0)) eqn:Hzero.
  { run. eexists _, _, _. split; [reflexivity|]. run_all.
    rewrite !free_after_alloc. auto. }
  destruct (glamor_create_fbo_answer A) as [f|] eqn:Hfbo.
  - run. eexists _, _, _. split; [reflexivity|]. run_all.
    rewrite !free_after_alloc. auto.
  - run. rewrite !free_after_alloc.
    eexists _, _, _. split; [reflexivity|]. run_all.
    rewrite free_after_alloc. auto.
Qed.

(** X16: when a feasible request finds no memory for the binding record,
    [glamor_create_pixmap] returns a software pixmap of the requested size
    and leaves the zero-sized placeholder it had created live, with its one
    reference, at an address nobody was given: destroying the returned
    pixmap does not take the placeholder away. *)
Theorem create_pixmap_leaks_placeholder_without_memory P A w h d usage s gp :
  screen_devPrivates s = Some gp ->
  w <= 32767 -> h <= 32767 ->
  glamor_check_fbo_size gp w h = true ->
  glamor_check_fbo_depth P d = true ->
  usage <> GLAMOR_CREATE_PIXMAP_CPU P ->
  calloc_ok A = false ->
  exists a0 a1 s1 s2,
    a0 <> a1 /\
    pixmaps s !! a0 = None /\
    glamor_create_pixmap P A w h d usage s = Some (pixmap_at a1, s1) /\
    pixmaps s1 !! a1 =
      Some (mkPixmap (mkDrawable w h d (BitsPerPixel P d))
                     (PixmapBytePad P w d) usage 1 None) /\
    pixmaps s1 !! a0 =
      Some (mkPixmap (mkDrawable 0 0 d (BitsPerPixel P d))
                     (PixmapBytePad P 0 d) usage 1 None) /\
    pixmap_privates s1 = pixmap_privates s /\
    glamor_destroy_pixmap (pixmap_at a1) s1 = Some (true, s2) /\
    pixmaps s2 =
      <[a0 := mkPixmap (mkDrawable 0 0 d (BitsPerPixel P d))
                       (PixmapBytePad P 0 d) usage 1 None]> (pixmaps s).
Proof.
  intros Hgp Hw Hh Hsize Hdepth Hcpu Hcalloc.
  destruct s as [scr ps sp k1 k2 bh pm pv dl lg cb]. cbn in Hgp. subst sp.
  pose proof (proj2 (size_guard w h) (conj Hw Hh)) as Hguard.
  assert (negb (glamor_check_fbo_size gp w h)
          || negb (glamor_check_fbo_depth P d)
          || (usage =? GLAMOR_CREATE_PIXMAP_CPU P) = false) as Htest.
  { rewrite Hsize, Hdepth. cbn. now apply Z.eqb_neq. }
  set (ph := mkPixmap (mkDrawable 0 0 d (BitsPerPixel P d))
                      (PixmapBytePad P 0 d) usage 1 None).
  pose proof (unused_address_unused pm) as Hnew0.
  pose proof (unused_address_unused (<[unused_address pm := ph]> pm)) as Hnew1.
  apply lookup_insert_None in Hnew1 as [Hnew1 Hne].
  exists (unused_address pm),
         (unused_address (<[unused_address pm := ph]> pm)).
  unfold glamor_create_pixmap, glamor_destroy_pixmap,
    glamor_destroy_textured_pixmap. run. fold ph.
  eexists _, _. split; [exact Hne|]. split; [exact Hnew0|].
  split; [reflexivity|]. cbn.
  split; [apply lookup_insert_eq|].
  split; [rewrite lookup_insert_ne by congruence; apply lookup_insert_eq|].
  split; [reflexivity|].
  run_all. rewrite free_after_alloc. auto.
Qed.

(** X17: a feasible request with positive width and height, granted a
    binding record and a render target, yields a new pixmap of the
    requested width, height and depth, holding one reference, whose record
    is of type [GLAMOR_TEXTURE_ONLY], names the pixmap as its [container]
    and owns the target the pool gave; the pool is asked once, for the
    requested size, and the target is attached after that.  With a
    positive number of bits per pixel the pitch of line 177 becomes the
    pixmap's [devKind]. *)
Theorem create_pixmap_accelerated P A w h d usage s gp f :
  screen_devPrivates s = Some gp ->
  0 < w <= 32767 -> 0 < h <= 32767 ->
  glamor_check_fbo_size gp w h = true ->
  glamor_check_fbo_depth P d = true ->
  usage <> GLAMOR_CREATE_PIXMAP_CPU P ->
  calloc_ok A = true ->
  glamor_create_fbo_answer A = Some f ->
  exists a b s' k,
    glamor_create_pixmap P A w h d usage s = Some (pixmap_at a, s') /\
    pixmaps s !! a = None /\
    pixmap_privates s !! b = None /\
    pixmaps s' =
      <[a := mkPixmap (mkDrawable w h d (BitsPerPixel P d)) k usage 1
                      (Some b)]> (pixmaps s) /\
    (0 < BitsPerPixel P d -> k = pixmap_pitch w (BitsPerPixel P d)) /\
    pixmap_privates s' =
      <[b := mkPixmapPrivate a GLAMOR_TEXTURE_ONLY (Some f)]>
        (pixmap_privates s) /\
    log s' = log s ++
      [call_glamor_create_fbo w h d usage;
       call_glamor_pixmap_attach_fbo (pixmap_at a) f].
Proof.
  intros Hgp [Hw0 Hw] [Hh0 Hh] Hsize Hdepth Hcpu Hcalloc Hfbo.
  destruct s as [scr ps sp k1 k2 bh pm pv dl lg cb]. cbn in Hgp. subst sp.
  pose proof (proj2 (size_guard w h) (conj Hw Hh)) as Hguard.
  assert (negb (glamor_check_fbo_size gp w h)
          || negb (glamor_check_fbo_depth P d)
          || (usage =? GLAMOR_CREATE_PIXMAP_CPU P) = false) as Htest.
  { rewrite Hsize, Hdepth. cbn. now apply Z.eqb_neq. }
  assert ((w =? 0) || (h =? 0) = false) as Hzero.
  { apply orb_false_iff. rewrite !Z.eqb_neq. lia. }
  assert ((0 <? w) = true) as Hwpos by now apply Z.ltb_lt.
  assert ((0 <? h) = true) as Hhpos by now apply Z.ltb_lt.
  unfold glamor_create_pixmap. run.
  eexists _, _, _, _. split; [reflexivity|]. cbn.
  split; [apply unused_address_unused|].
  split; [apply unused_address_unused|].
  split; [reflexivity|]. split; [|split; [reflexivity|]].
  - intros Hbpp.
    assert (0 < pixmap_pitch w (BitsPerPixel P d)) as Hpitch.
    { unfold pixmap_pitch.
      change (Z.lnot 3) with (Z.lnot (Z.ones 2)).
      rewrite <- Z.ldiff_land, Z.ldiff_ones_r by lia.
      rewrite Z.shiftl_mul_pow2, Z.shiftr_div_pow2 by lia.
      change (2 ^ 2) with 4.
      assert (1 <= Z.quot (w * BitsPerPixel P d + 7) 8).
      { rewrite Z.quot_div_nonneg by nia.
        apply Z.div_le_lower_bound; nia. }
      assert (1 <= (Z.quot (w * BitsPerPixel P d + 7) 8 + 3) / 4).
      { apply Z.div_le_lower_bound; lia. }
      lia. }
    apply Z.ltb_lt in Hpitch. rewrite Hpitch. reflexivity.
  - now rewrite <- app_assoc.
Qed.

(** X18: a feasible request with zero width or zero height is answered
    without asking the pool: the 0 by 0 placeholder itself is returned,
    whatever the other dimension was, bound to a record of type
    [GLAMOR_TEXTURE_ONLY] that owns no render target, and no call is
    made. *)
Theorem create_pixmap_zero_sized P A w h d usage s gp :
  screen_devPrivates s = Some gp ->
  w <= 32767 -> h <= 32767 ->
  w = 0 \/ h = 0 ->
  glamor_check_fbo_size gp w h = true ->
  glamor_check_fbo_depth P d = true ->
  usage <> GLAMOR_CREATE_PIXMAP_CPU P ->
  calloc_ok A = true ->
  exists a b s',
    glamor_create_pixmap P A w h d usage s = Some (pixmap_at a, s') /\
    pixmaps s !! a = None /\
    pixmap_privates s !! b = None /\
    pixmaps s' =
      <[a := mkPixmap (mkDrawable 0 0 d (BitsPerPixel P d))
                      (PixmapBytePad P 0 d) usage 1 (Some b)]> (pixmaps s) /\
    pixmap_privates s' =
      <[b := mkPixmapPrivate a GLAMOR_TEXTURE_ONLY None]>
        (pixmap_privates s) /\
    log s' = log s.
Proof.
  intros Hgp Hw Hh Hempty Hsize Hdepth Hcpu Hcalloc.
  destruct s as [scr ps sp k1 k2 bh pm pv dl lg cb]. cbn in Hgp. subst sp.
  pose proof (proj2 (size_guard w h) (conj Hw Hh)) as Hguard.
  assert (negb (glamor_check_fbo_size gp w h)
          || negb (glamor_check_fbo_depth P d)
          || (usage =? GLAMOR_CREATE_PIXMAP_CPU P) = false) as Htest.
  { rewrite Hsize, Hdepth. cbn. now apply Z.eqb_neq. }
  assert ((w =? 0) || (h =? 0) = true) as Hzero.
  { apply orb_true_iff. now rewrite !Z.eqb_eq. }
  unfold glamor_create_pixmap. run.
  eexists _, _, _. split; [reflexivity|]. cbn.
  split; [apply unused_address_unused|].
  split; [apply unused_address_unused|]. auto.
Qed.

(** X19: the pitch of line 177 is the least multiple of four bytes that
    holds a row: for a row of [w * bpp] bits, not negative, it is a
    multiple of 4, it has room for the row, and no smaller multiple of 4
    has. *)
Theorem pixmap_pitch_least_aligned_row w bpp :
  0 <= w * bpp ->
  pixmap_pitch w bpp mod 4 = 0 /\
  w * bpp <= 8 * pixmap_pitch w bpp /\
  forall m, m mod 4 = 0 -> w * bpp <= 8 * m -> pixmap_pitch w bpp <= m.
Proof.
  intros Hbits. unfold pixmap_pitch.
  change (Z.lnot 3) with (Z.lnot (Z.ones 2)).
  rewrite <- Z.ldiff_land, Z.ldiff_ones_r by lia.
  rewrite Z.shiftl_mul_pow2, Z.shiftr_div_pow2 by lia.
  change (2 ^ 2) with 4.
  rewrite Z.quot_div_nonneg by lia.
  set (q := (w * bpp + 7) / 8).
  assert (w * bpp <= 8 * q /\ 8 * q < w * bpp + 8) as [Hq1 Hq2].
  { unfold q. pose proof (Z.div_mod (w * bpp + 7) 8 ltac:(lia)).
    pose proof (Z.mod_pos_bound (w * bpp + 7) 8 ltac:(lia)). lia. }
  assert (q <= (q + 3) / 4 * 4 /\ (q + 3) / 4 * 4 < q + 4) as [Hp1 Hp2].
  { pose proof (Z.div_mod (q + 3) 4 ltac:(lia)).
    pose proof (Z.mod_pos_bound (q + 3) 4 ltac:(lia)). lia. }
  split; [apply Z.mod_mul; lia|]. split; [lia|].
  intros m Hm Hroom.
  apply Z.mod_divide in Hm; [|lia]. destruct Hm as [j ->]. nia.
Qed.

(** ** Initialisation, again *)

(** The host a successful [glamor_init] leaves. *)
Lemma glamor_init_success_state P A fl s s' :
  glamor_init P A fl s = Some (true, s') ->
  screen s' = screen_after_init fl (screen s) /\
  picture_screen s' = picture_screen_after_init P fl (picture_screen s) /\
  screen_devPrivates s' =
    Some (screen_private_after_init P A fl (screen s) (picture_screen s)
            (context_blocks s)) /\
  block_and_wakeup_handlers s' =
    block_and_wakeup_handlers s ++
      (if flag_set fl GLAMOR_USE_SCREEN
       then [(P__glamor_block_handler, P__glamor_wakeup_handler,
              unused_address (context_blocks s))]
       else []) /\
  pixmaps s' = pixmaps s /\
  pixmap_privates s' = pixmap_privates s /\
  context_blocks s' =
    <[unused_address (context_blocks s) := tt]> (context_blocks s).
Proof.
  destruct s as [scr [psr|] sp k1 k2 bh pm pv dl lg cb];
  unfold glamor_init, glamor_init_finish, RegisterBlockAndWakeupHandlers,
    dixRegisterPrivateKey_screen, dixRegisterPrivateKey_pixmap,
    screen_after_init, picture_screen_after_init,
    screen_private_after_init, saved_procs_after_init;
  destruct (flag_set fl GLAMOR_USE_SCREEN) eqn:Huse;
  destruct (flag_set fl GLAMOR_USE_PICTURE_SCREEN) eqn:Hpict;
  destruct (flag_set fl GLAMOR_INVERTED_Y_AXIS) eqn:Hinv;
  destruct (RENDER P) eqn:Hrender;
  destruct (GLAMOR_GLES2 P) eqn:Hes;
  repeat (run; try branch);
  intros Hrun; try discriminate Hrun;
  injection Hrun as <-; cbn; rewrite ?app_nil_r;
  repeat split; reflexivity.
Qed.

(** How [glamor_init] ends, by what the collaborators answer. *)
Lemma glamor_init_cases P A fl s :
  match glamor_init P A fl s with
  | Some (true, _) =>
      negotiation_passes P A fl /\
      (RENDER P = true -> picture_screen s <> None)
  | Some (false, _) => ~ negotiation_passes P A fl
  | None =>
      negotiation_passes P A fl /\
      RENDER P = true /\ picture_screen s = None
  end.
Proof.
  destruct s as [scr [psr|] sp k1 k2 bh pm pv dl lg cb];
  unfold glamor_init, glamor_init_finish, RegisterBlockAndWakeupHandlers,
    dixRegisterPrivateKey_screen, dixRegisterPrivateKey_pixmap,
    negotiation_passes;
  (destruct (Z.land fl (Z.lnot GLAMOR_VALID_FLAGS) =? 0) eqn:Hvalid;
     [apply Z.eqb_eq in Hvalid | apply Z.eqb_neq in Hvalid]);
  destruct (calloc_ok A) eqn:Hcalloc;
  destruct (dixRegisterPrivateKey_screen_ok A) eqn:Hkey1;
  destruct (dixRegisterPrivateKey_pixmap_ok A) eqn:Hkey2;
  destruct (GLAMOR_GLES2 P) eqn:Hes;
  destruct (glamor_gl_has_extension A "GL_EXT_texture_format_BGRA8888")
    eqn:Hext;
  destruct (flag_set fl GLAMOR_USE_SCREEN) eqn:Huse;
  destruct (RegisterBlockAndWakeupHandlers_ok A) eqn:Hreg;
  destruct (RENDER P) eqn:Hrender;
  repeat (run; try branch); cbn;
  first
    [ (* returned TRUE, or did not return *)
      solve [ repeat split; (assumption || discriminate || reflexivity) ]
    | (* returned FALSE *)
      intros (H1 & H2 & H3 & H4 & H5 & H6 & H7);
      try specialize (H6 eq_refl); try specialize (H7 eq_refl);
      congruence ].
Qed.

(** X20: [glamor_init] returns TRUE exactly when the flags are recognised,
    memory and both private keys are granted, GL is recent enough for the
    build and has the extension a GLES2 build requires, the event loop
    takes the handlers (asked only with [GLAMOR_USE_SCREEN]) and, in a
    RENDER build, the screen has a picture screen; it returns FALSE exactly
    when one of the conditions before the last is not met. *)
Theorem glamor_init_returns_true_exactly_when P A fl s :
  ((exists s', glamor_init P A fl s = Some (true, s')) <->
   negotiation_passes P A fl /\
   (RENDER P = true -> picture_screen s <> None)) /\
  ((exists s', glamor_init P A fl s = Some (false, s')) <->
   ~ negotiation_passes P A fl).
Proof.
  pose proof (glamor_init_cases P A fl s) as Hcases.
  destruct (glamor_init P A fl s) as [[[|] s'']|]; split; split.
  - intros _. exact Hcases.
  - intros _. eauto.
  - intros [s' [=]].
  - intros Hno. destruct Hcases as [Hyes _]. contradiction.
  - intros [s' [=]].
  - intros [Hyes _]. contradiction.
  - intros _. exact Hcases.
  - intros _. eauto.
  - intros [s' [=]].
  - intros [_ Hps]. destruct Hcases as (_ & Hrender & Hnone).
    exfalso. exact (Hps Hrender Hnone).
  - intros [s' [=]].
  - intros Hno. destruct Hcases as [Hyes _]. contradiction.
Qed.

(** X21: in a RENDER build [glamor_init] uses the picture screen without
    testing it (lines 361-383, where [glamor_close_screen] tests it): on a
    screen without picture screen, an initialisation that passes every
    test of the negotiation does not return, and it is the only way for
    [glamor_init] not to return. *)
Theorem glamor_init_needs_picture_screen P A fl s :
  glamor_init P A fl s = None <->
  negotiation_passes P A fl /\ RENDER P = true /\ picture_screen s = None.
Proof.
  pose proof (glamor_init_cases P A fl s) as Hcases.
  destruct (glamor_init P A fl s) as [[[|] s'']|]; split.
  - discriminate.
  - intros (_ & Hrender & Hnone). destruct Hcases as [_ Hps].
    now destruct (Hps Hrender).
  - discriminate.
  - intros (Hyes & _). contradiction.
  - intros _. exact Hcases.
  - reflexivity.
Qed.

(** X22: what a successful [glamor_init] installs is gated by the flags,
    family by family.  Without [GLAMOR_USE_SCREEN] the screen's table is
    untouched and no handler is registered with the event loop; with it,
    all nine screen slots hold glamor's handlers and one pair of handlers
    is registered, with the dispatch table of the new context record as
    its data.  In a RENDER build [CreatePicture] and [DestroyPicture]
    are taken whatever the flags, and the six compositing slots only with
    [GLAMOR_USE_PICTURE_SCREEN]; without RENDER the picture screen is
    untouched.  No pixmap and no binding record is touched. *)
Theorem glamor_init_flags_gate_families P A fl s s' :
  glamor_init P A fl s = Some (true, s') ->
  (if flag_set fl GLAMOR_USE_SCREEN
   then screen s' = install_screen_procs (screen s) /\
        exists gp,
          screen_devPrivates s' = Some gp /\
          block_and_wakeup_handlers s' =
            block_and_wakeup_handlers s ++
              [(P__glamor_block_handler, P__glamor_wakeup_handler,
                address_of_dispatch gp)]
   else screen s' = screen s /\
        block_and_wakeup_handlers s' = block_and_wakeup_handlers s) /\
  (if RENDER P
   then exists psr,
          picture_screen s = Some psr /\
          picture_screen s' =
            Some (install_picture_lifetime_procs
                    (if flag_set fl GLAMOR_USE_PICTURE_SCREEN
                     then install_picture_procs psr
                     else psr))
   else picture_screen s' = picture_screen s) /\
  pixmaps s' = pixmaps s /\
  pixmap_privates s' = pixmap_privates s.
Proof.
  intros Hinit.
  pose proof (glamor_init_cases P A fl s) as Hcases. rewrite Hinit in Hcases.
  destruct Hcases as [_ Hps].
  destruct (glamor_init_success_state _ _ _ _ _ Hinit)
    as (Hscr & Hpict & Hslot & Hbh & Hpm & Hpv & _).
  unfold screen_after_init in Hscr.
  unfold picture_screen_after_init in Hpict.
  split; [|split; [|auto]].
  - destruct (flag_set fl GLAMOR_USE_SCREEN); split; auto.
    + eexists. split; [exact Hslot|exact Hbh].
    + now rewrite app_nil_r in Hbh.
  - destruct (RENDER P); [|exact Hpict].
    destruct (picture_screen s) as [psr|]; [eauto|].
    now destruct (Hps eq_refl).
Qed.

(** X23: the size up to which [glamor_create_pixmap] accelerates is the
    largest render target GL reported to [glamor_init].  After a
    successful initialisation, a request within the 32767 guard that is
    wider or higher than that size is answered by the software path alone;
    a request of non-zero size within it, of a supported depth and not
    CPU-forced, granted a record and a render target, comes back bound to
    that target. *)
Theorem init_fixes_size_threshold P A fl s s1 A' w h d usage :
  glamor_init P A fl s = Some (true, s1) ->
  w <= 32767 -> h <= 32767 ->
  (GL_MAX_RENDERBUFFER_SIZE A < w \/ GL_MAX_RENDERBUFFER_SIZE A < h ->
   glamor_create_pixmap P A' w h d usage s1 =
     fbCreatePixmap P w h d usage s1) /\
  (w <= GL_MAX_RENDERBUFFER_SIZE A -> h <= GL_MAX_RENDERBUFFER_SIZE A ->
   w <> 0 -> h <> 0 ->
   glamor_check_fbo_depth P d = true ->
   usage <> GLAMOR_CREATE_PIXMAP_CPU P ->
   calloc_ok A' = true ->
   forall f,
     glamor_create_fbo_answer A' = Some f ->
     exists a b s2 px,
       glamor_create_pixmap P A' w h d usage s1 = Some (pixmap_at a, s2) /\
       pixmaps s2 !! a = Some px /\
       devPrivates px = Some b /\
       pixmap_privates s2 !! b =
         Some (mkPixmapPrivate a GLAMOR_TEXTURE_ONLY (Some f))).
Proof.
  intros Hinit Hw Hh.
  destruct (glamor_init_success_state _ _ _ _ _ Hinit)
    as (_ & _ & Hslot & _).
  set (gp := screen_private_after_init P A fl (screen s) (picture_screen s)
               (context_blocks s)) in Hslot.
  assert (max_fbo_size gp = GL_MAX_RENDERBUFFER_SIZE A) as Hmax
    by reflexivity.
  clearbody gp. clear Hinit.
  destruct s1 as [scr ps sp k1 k2 bh pm pv dl lg cb]. cbn in Hslot. subst sp.
  pose proof (proj2 (size_guard w h) (conj Hw Hh)) as Hguard.
  unfold glamor_create_pixmap. split.
  - intros Hbig.
    assert (negb (glamor_check_fbo_size gp w h)
            || negb (glamor_check_fbo_depth P d)
            || (usage =? GLAMOR_CREATE_PIXMAP_CPU P) = true) as Htest.
    { apply infeasible_test. rewrite Hmax. tauto. }
    run. reflexivity.
  - intros Hw' Hh' Hw0 Hh0 Hdepth Hcpu Hcalloc f Hfbo.
    assert (negb (glamor_check_fbo_size gp w h)
            || negb (glamor_check_fbo_depth P d)
            || (usage =? GLAMOR_CREATE_PIXMAP_CPU P) = false) as Htest.
    { unfold glamor_check_fbo_size. rewrite Hmax, Hdepth.
      rewrite (proj2 (Z.leb_le _ _) Hw'), (proj2 (Z.leb_le _ _) Hh'). cbn.
      now apply Z.eqb_neq. }
    assert ((w =? 0) || (h =? 0) = false) as Hzero.
    { apply orb_false_iff. now rewrite !Z.eqb_neq. }
    run. eexists _, _, _, _. split; [reflexivity|]. cbn.
    split; [apply lookup_insert_eq|]. split; [reflexivity|].
    apply lookup_insert_eq.
Qed.

(** ** Teardown, again *)

(** X24: for every host, initialisation followed by the restore of
    [glamor_close_screen] gives back the handlers of the slots it writes:
    with [GLAMOR_USE_SCREEN], the eight slots [CloseScreen], [CreateGC],
    [CreatePixmap], [DestroyPixmap], [GetSpans], [ChangeWindowAttributes],
    [CopyWindow] and [BitmapToRegion] hold again what they held before the
    initialisation (without the flag the table was never touched); in a
    RENDER build with [GLAMOR_USE_PICTURE_SCREEN], so do [Composite],
    [Trapezoids], [Glyphs], [Triangles] and [CreatePicture]. *)
Theorem init_then_close_restores_saved_slots P A fl s s1 :
  glamor_init P A fl s = Some (true, s1) ->
  exists s2,
    glamor_close_screen_restore P s1 = Some (fl, s2) /\
    screen_devPrivates s2 = None /\
    (flag_set fl GLAMOR_USE_SCREEN = false -> screen s2 = screen s) /\
    (flag_set fl GLAMOR_USE_SCREEN = true ->
     CloseScreen (screen s2) = CloseScreen (screen s) /\
     CreateGC (screen s2) = CreateGC (screen s) /\
     CreatePixmap (screen s2) = CreatePixmap (screen s) /\
     DestroyPixmap (screen s2) = DestroyPixmap (screen s) /\
     GetSpans (screen s2) = GetSpans (screen s) /\
     ChangeWindowAttributes (screen s2) = ChangeWindowAttributes (screen s) /\
     CopyWindow (screen s2) = CopyWindow (screen s) /\
     BitmapToRegion (screen s2) = BitmapToRegion (screen s)) /\
    (RENDER P = true -> flag_set fl GLAMOR_USE_PICTURE_SCREEN = true ->
     exists psr psr2,
       picture_screen s = Some psr /\
       picture_screen s2 = Some psr2 /\
       Composite psr2 = Composite psr /\
       Trapezoids psr2 = Trapezoids psr /\
       Glyphs psr2 = Glyphs psr /\
       Triangles psr2 = Triangles psr /\
       CreatePicture psr2 = CreatePicture psr).
Proof.
  intros Hinit.
  pose proof (glamor_init_cases P A fl s) as Hcases. rewrite Hinit in Hcases.
  destruct Hcases as [_ Hps].
  destruct (glamor_init_success_state _ _ _ _ _ Hinit)
    as (Hscr & Hpict & Hslot & _).
  clear Hinit.
  destruct s1 as [scr1 ps1 sp1 k1 k2 bh pm pv dl lg cb].
  cbn in Hscr, Hpict, Hslot. subst scr1 ps1 sp1.
  unfold glamor_close_screen_restore, glamor_release_screen_priv,
    screen_private_after_init, saved_procs_after_init,
    screen_after_init, picture_screen_after_init.
  destruct (flag_set fl GLAMOR_USE_SCREEN) eqn:Huse;
    destruct (RENDER P) eqn:Hrender;
    destruct (flag_set fl GLAMOR_USE_PICTURE_SCREEN) eqn:Hpict;
    (destruct (picture_screen s) as [psr|] eqn:Hpsr;
       [|try (now destruct (Hps eq_refl))]);
    run; (eexists; split; [reflexivity|]); cbn;
    (split; [reflexivity|]);
    (split; [intros Hf; first [discriminate Hf | reflexivity]|]);
    (split; [intros Hf; first [discriminate Hf | repeat split]|]);
    intros Hr Hf; try discriminate Hr; try discriminate Hf;
    eexists _, _; repeat split.
Qed.

(** X25: the restore of [glamor_close_screen] releases the context record
    and nothing else of what glamor.c allocated or registered: the block of
    the record is freed and the slot emptied, the block and wakeup handlers
    stay registered with the event loop, and every pixmap and every binding
    record is as it was. *)
Theorem close_screen_releases_only_the_context P s gp :
  screen_devPrivates s = Some gp ->
  exists s2,
    glamor_close_screen_restore P s = Some (flags gp, s2) /\
    screen_devPrivates s2 = None /\
    block_and_wakeup_handlers s2 = block_and_wakeup_handlers s /\
    pixmaps s2 = pixmaps s /\
    pixmap_privates s2 = pixmap_privates s /\
    context_blocks s2 = delete (address_of_dispatch gp) (context_blocks s).
Proof.
  intros Hgp.
  destruct s as [scr [psr|] sp k1 k2 bh pm pv dl lg cb]; cbn in Hgp; subst sp;
    unfold glamor_close_screen_restore, glamor_release_screen_priv;
    destruct (flag_set (flags gp) GLAMOR_USE_SCREEN) eqn:Huse;
    destruct (RENDER P) eqn:Hrender;
    destruct (flag_set (flags gp) GLAMOR_USE_PICTURE_SCREEN) eqn:Hpict;
    run; eexists; (split; [reflexivity|]); cbn; repeat split; reflexivity.
Qed.

(** X26: the handler that [glamor_init] registered with the event loop
    outlives the teardown, and its data does not: after an initialisation
    with [GLAMOR_USE_SCREEN] and the restore of [glamor_close_screen], the
    pair is still registered, after the handlers that were there before,
    and the data pointer it will be called with points into the context
    record that the teardown freed.  Nothing in glamor.c takes the pair out
    of the event loop. *)
Theorem block_handler_outlives_teardown P A fl s s1 :
  glamor_init P A fl s = Some (true, s1) ->
  flag_set fl GLAMOR_USE_SCREEN = true ->
  exists gp s2,
    screen_devPrivates s1 = Some gp /\
    context_blocks s1 !! address_of_dispatch gp = Some tt /\
    glamor_close_screen_restore P s1 = Some (fl, s2) /\
    screen_devPrivates s2 = None /\
    block_and_wakeup_handlers s2 =
      block_and_wakeup_handlers s ++
        [(P__glamor_block_handler, P__glamor_wakeup_handler,
          address_of_dispatch gp)] /\
    context_blocks s2 !! address_of_dispatch gp = None.
Proof.
  intros Hinit Huse.
  destruct (glamor_init_success_state _ _ _ _ _ Hinit)
    as (_ & Hpict & Hslot & Hbh & _ & _ & Hcb).
  rewrite Huse in Hbh. clear Hinit Hpict.
  set (gp := screen_private_after_init P A fl (screen s) (picture_screen s)
               (context_blocks s)) in Hslot.
  assert (flags gp = fl) as Hfl by reflexivity.
  assert (address_of_dispatch gp = unused_address (context_blocks s))
    as Haddr by reflexivity.
  rewrite <- Haddr in Hbh, Hcb. clearbody gp.
  exists gp.
  destruct s1 as [scr [psr|] sp k1 k2 bh pm pv dl lg cb];
    cbn in Hslot, Hbh, Hcb; subst sp bh fl cb;
    unfold glamor_close_screen_restore, glamor_release_screen_priv;
    destruct (RENDER P) eqn:Hrender;
    destruct (flag_set (flags gp) GLAMOR_USE_PICTURE_SCREEN) eqn:Hpict;
    run; (eexists; split; [reflexivity|]); cbn;
    (split; [first [reflexivity | apply lookup_insert_eq]|]);
    (split; [reflexivity|]); (split; [reflexivity|]);
    (split; [reflexivity|]); apply lookup_delete_eq.
Qed.

(** Without context record none of these returns. *)
Lemma entry_points_need_context P s :
  screen_devPrivates s = None ->
  (forall idx, glamor_close_screen P idx s = None) /\
  glamor_block_handler s = None /\
  (forall p, glamor_set_screen_pixmap p s = None).
Proof.
  intros Hnone.
  destruct s as [scr ps sp k1 k2 bh pm pv dl lg cb]. cbn in Hnone. subst sp.
  split; [intros idx; reflexivity|]. split; [reflexivity|].
  intros [|a]; [reflexivity|].
  unfold glamor_set_screen_pixmap. run.
  destruct (pm !! a) as [px|] eqn:Hpix; run; [|reflexivity].
  destruct (devPrivates px) as [b|] eqn:Hslot; run; [|reflexivity].
  destruct (pv !! b) as [pp|] eqn:Hrec; run; [|reflexivity].
  destruct (fbo pp) as [f|] eqn:Hfbo; run; reflexivity.
Qed.

(** X27: the teardown cannot be repeated, and the per-frame handler cannot
    follow it: on the host the restore of [glamor_close_screen] leaves,
    [glamor_close_screen], [glamor_block_handler] and
    [glamor_set_screen_pixmap] read the context record that is no longer
    there and do not return. *)
Theorem nothing_follows_teardown P s gp :
  screen_devPrivates s = Some gp ->
  exists s2,
    glamor_close_screen_restore P s = Some (flags gp, s2) /\
    (forall idx, glamor_close_screen P idx s2 = None) /\
    glamor_block_handler s2 = None /\
    (forall p, glamor_set_screen_pixmap p s2 = None).
Proof.
  intros Hgp.
  destruct (close_screen_restore_releases P s gp Hgp) as (s2 & Hclose & Hnone).
  exists s2. split; [exact Hclose|].
  exact (entry_points_need_context P s2 Hnone).
Qed.

(** X28: [glamor_init] does not look whether the screen is initialised
    already.  A second successful initialisation with [GLAMOR_USE_SCREEN]
    on top of a first one saves glamor's own nine handlers as the previous
    ones and registers the block and wakeup handlers a second time, with
    the dispatch table of a second context record; the
    restore of [glamor_close_screen] then writes glamor's handlers back,
    so that the screen's table still holds all nine of them and the
    handlers the host had before the first initialisation are in no
    slot. *)
Theorem second_init_saves_glamor_handlers P A A' fl fl' s s1 s2 :
  glamor_init P A fl s = Some (true, s1) ->
  flag_set fl GLAMOR_USE_SCREEN = true ->
  glamor_init P A' fl' s1 = Some (true, s2) ->
  flag_set fl' GLAMOR_USE_SCREEN = true ->
  exists gp s3,
    screen_devPrivates s2 = Some gp /\
    save_screen_procs (install_screen_procs (screen s)) (saved_procs gp) =
      saved_procs gp /\
    (exists gp1,
       screen_devPrivates s1 = Some gp1 /\
       address_of_dispatch gp1 <> address_of_dispatch gp /\
       block_and_wakeup_handlers s2 =
         block_and_wakeup_handlers s ++
           [(P__glamor_block_handler, P__glamor_wakeup_handler,
             address_of_dispatch gp1);
            (P__glamor_block_handler, P__glamor_wakeup_handler,
             address_of_dispatch gp)]) /\
    glamor_close_screen_restore P s2 = Some (fl', s3) /\
    screen s3 = install_screen_procs (screen s).
Proof.
  intros Hinit1 Huse1 Hinit2 Huse2.
  destruct (glamor_init_success_state _ _ _ _ _ Hinit1)
    as (Hscr1 & _ & Hslot1 & Hbh1 & _ & _ & Hcb1).
  destruct (glamor_init_success_state _ _ _ _ _ Hinit2)
    as (Hscr2 & Hpict2 & Hslot2 & Hbh2 & _).
  unfold screen_after_init in Hscr1, Hscr2.
  rewrite Huse1 in Hscr1, Hbh1. rewrite Huse2 in Hscr2, Hbh2.
  rewrite Hscr1 in *. rewrite Hbh1, <- app_assoc in Hbh2. cbn in Hbh2.
  assert (unused_address (context_blocks s) <>
          unused_address (context_blocks s1)) as Hdiff.
  { intros Heq.
    pose proof (unused_address_unused (context_blocks s1)) as Hnew.
    rewrite <- Heq, Hcb1, lookup_insert_eq in Hnew. discriminate Hnew. }
  clear Hinit1 Hinit2 Hscr1 Hbh1 Hcb1.
  destruct s2 as [scr2 ps2 sp2 k1 k2 bh2 pm pv dl lg cb].
  cbn in Hscr2, Hpict2, Hslot2, Hbh2. subst scr2 sp2 bh2.
  exists (screen_private_after_init P A' fl'
            (install_screen_procs (screen s)) (picture_screen s1)
            (context_blocks s1)).
  unfold glamor_close_screen_restore, glamor_release_screen_priv,
    screen_private_after_init, saved_procs_after_init.
  rewrite Huse2.
  destruct (RENDER P) eqn:Hrender;
    destruct (flag_set fl' GLAMOR_USE_PICTURE_SCREEN) eqn:Hpict;
    destruct (picture_screen s1) as [psr1|] eqn:Hps1;
    destruct ps2 as [psr2|];
    run; (eexists; split; [reflexivity|]); cbn;
    (split; [reflexivity|]);
    (split; [eexists; split; [exact Hslot1|]; split; [exact Hdiff|reflexivity]
            |]);
    split; reflexivity.
Qed.

(** ** The further theorems at work on the concrete server *)

Lemma running_host_consistent : bindings_consistent running_host.
Proof.
  split; cbn.
  - intros a px b Hpx. rewrite lookup_empty in Hpx. discriminate Hpx.
  - intros b pp Hpp. rewrite lookup_empty in Hpp. discriminate Hpp.
Qed.

Lemma shared_host_consistent : bindings_consistent shared_host.
Proof.
  split; cbn.
  - intros a px b Hpx Hb. apply lookup_singleton_Some in Hpx as [_ <-].
    discriminate Hb.
  - intros b pp Hpp. rewrite lookup_empty in Hpp. discriminate Hpp.
Qed.

Lemma bound_host_consistent : bindings_consistent bound_host.
Proof.
  split; cbn.
  - intros a px b Hpx Hb. apply lookup_singleton_Some in Hpx as [<- <-].
    injection Hb as <-. eexists. split; reflexivity.
  - intros b pp Hpp. apply lookup_singleton_Some in Hpp as [<- <-].
    eexists. split; reflexivity.
Qed.

Lemma set_pixmap_type_creates_record_witness :
  exists s' b,
    glamor_set_pixmap_type good_answers (pixmap_at 5) GLAMOR_TEXTURE_DRM
      shared_host = Some (tt, s') /\
    pixmap_privates shared_host !! b = None /\
    pixmap_privates s' =
      <[b := mkPixmapPrivate 5%N GLAMOR_TEXTURE_DRM None]>
        (pixmap_privates shared_host) /\
    pixmaps s' =
      <[5%N := mkPixmap (mkDrawable 32 32 24 32) 128 0 2 (Some b)]>
        (pixmaps shared_host) /\
    log s' = log shared_host /\
    screen_devPrivates s' = screen_devPrivates shared_host /\
    screen s' = screen shared_host.
Proof.
  apply (set_pixmap_type_creates_record good_answers shared_host 5
           (mkPixmap (mkDrawable 32 32 24 32) 128 0 2 None)
           GLAMOR_TEXTURE_DRM); reflexivity.
Defined.

Lemma set_pixmap_type_keeps_binding_witness :
  glamor_set_pixmap_type good_answers (pixmap_at 5) GLAMOR_TEXTURE_DRM
    bound_host =
  Some (tt, with_pixmap_privates
              (<[9%N := mkPixmapPrivate 5%N GLAMOR_TEXTURE_DRM
                          (Some example_fbo)]>
                 (pixmap_privates bound_host)) bound_host).
Proof.
  refine (proj1 (set_pixmap_type_keeps_binding good_answers bound_host 5
                   (mkPixmap (mkDrawable 32 32 24 32) 128 0 1 (Some 9%N)) 9
                   (mkPixmapPrivate 5%N GLAMOR_TEXTURE_ONLY (Some example_fbo))
                   GLAMOR_TEXTURE_DRM _ _ _)); reflexivity.
Defined.

Lemma set_pixmap_type_dereferences_failed_calloc_witness :
  glamor_set_pixmap_type out_of_memory (pixmap_at 5) GLAMOR_TEXTURE_DRM
    shared_host = None.
Proof.
  apply (set_pixmap_type_dereferences_failed_calloc out_of_memory shared_host
           5 (mkPixmap (mkDrawable 32 32 24 32) 128 0 2 None)); reflexivity.
Defined.

Lemma set_pixmap_texture_needs_record_witness :
  glamor_set_pixmap_texture good_answers (pixmap_at 5) 7 shared_host = None.
Proof.
  refine (proj1 (set_pixmap_texture_needs_record good_answers shared_host 5
                   (mkPixmap (mkDrawable 32 32 24 32) 128 0 2 None) 7 _ _));
    reflexivity.
Defined.

Lemma set_screen_pixmap_records_target_witness :
  glamor_set_screen_pixmap (pixmap_at 5) bound_host =
  Some (tt,
        with_pixmap_privates
          (<[9%N := mkPixmapPrivate 5%N GLAMOR_TEXTURE_ONLY
                      (Some (mkFbo 1 1 32 32 24))]>
             (pixmap_privates bound_host))
          (with_screen_devPrivates
             (Some (set_screen_fbo 1 example_screen_private)) bound_host)).
Proof.
  apply (set_screen_pixmap_records_target bound_host 5
           (mkPixmap (mkDrawable 32 32 24 32) 128 0 1 (Some 9%N)) 9
           (mkPixmapPrivate 5%N GLAMOR_TEXTURE_ONLY (Some example_fbo))
           example_fbo example_screen_private); reflexivity.
Defined.

Lemma set_screen_pixmap_requires_bound_pixmap_witness :
  glamor_set_screen_pixmap (pixmap_at 5) shared_host = None.
Proof.
  apply (set_screen_pixmap_requires_bound_pixmap shared_host 5
           (mkPixmap (mkDrawable 32 32 24 32) 128 0 2 None));
    [reflexivity | right; left; reflexivity].
Defined.

Lemma destroy_pixmap_drops_one_reference_witness :
  glamor_destroy_pixmap (pixmap_at 5) shared_host =
  Some (true,
        with_pixmaps
          (<[5%N := mkPixmap (mkDrawable 32 32 24 32) 128 0 1 None]>
             (pixmaps shared_host)) shared_host).
Proof.
  apply (destroy_pixmap_drops_one_reference shared_host 5
           (mkPixmap (mkDrawable 32 32 24 32) 128 0 2 None));
    [reflexivity | discriminate].
Defined.

Lemma destroy_pixmap_releases_binding_witness :
  glamor_destroy_pixmap (pixmap_at 5) bound_host =
  Some (true,
        with_pixmaps (delete 5%N (pixmaps bound_host))
          (with_pixmap_privates (delete 9%N (pixmap_privates bound_host))
             (with_log
                (log bound_host ++
                   [call_glamor_pixmap_detach_fbo 9;
                    call_glamor_destroy_fbo example_fbo])
                bound_host))).
Proof.
  apply (destroy_pixmap_releases_binding bound_host 5
           (mkPixmap (mkDrawable 32 32 24 32) 128 0 1 (Some 9%N)) 9
           (mkPixmapPrivate 5%N GLAMOR_TEXTURE_ONLY (Some example_fbo)));
    reflexivity.
Defined.

Lemma destroy_textured_pixmap_leaves_dangling_slot_witness :
  exists s',
    glamor_destroy_textured_pixmap (pixmap_at 5) bound_host = Some (tt, s') /\
    pixmaps s' = pixmaps bound_host /\
    pixmap_privates s' = delete 9%N (pixmap_privates bound_host) /\
    pixmaps s' !! 5%N =
      Some (mkPixmap (mkDrawable 32 32 24 32) 128 0 1 (Some 9%N)) /\
    pixmap_privates s' !! 9%N = None /\
    ~ bindings_consistent s'.
Proof.
  apply (destroy_textured_pixmap_leaves_dangling_slot bound_host 5
           (mkPixmap (mkDrawable 32 32 24 32) 128 0 1 (Some 9%N)) 9
           (mkPixmapPrivate 5%N GLAMOR_TEXTURE_ONLY (Some example_fbo)));
    reflexivity.
Defined.

Lemma create_pixmap_keeps_bindings_consistent_witness :
  exists p s',
    glamor_create_pixmap example_platform good_answers 32 32 24 0
      running_host = Some (p, s') /\
    bindings_consistent s'.
Proof.
  assert (exists p s',
            glamor_create_pixmap example_platform good_answers 32 32 24 0
              running_host = Some (p, s')) as (p & s' & Hrun)
    by (eexists _, _; vm_compute; reflexivity).
  exists p, s'. split; [exact Hrun|].
  exact (create_pixmap_keeps_bindings_consistent example_platform
           good_answers 32 32 24 0 running_host p s'
           running_host_consistent Hrun).
Defined.

Lemma destroy_pixmap_keeps_bindings_consistent_witness :
  exists s',
    glamor_destroy_pixmap (pixmap_at 5) bound_host = Some (true, s') /\
    bindings_consistent s'.
Proof.
  apply (destroy_pixmap_keeps_bindings_consistent bound_host 5
           (mkPixmap (mkDrawable 32 32 24 32) 128 0 1 (Some 9%N))
           bound_host_consistent); reflexivity.
Defined.

Lemma set_pixmap_type_keeps_bindings_consistent_witness :
  exists s',
    glamor_set_pixmap_type good_answers (pixmap_at 5) GLAMOR_TEXTURE_DRM
      shared_host = Some (tt, s') /\
    bindings_consistent s'.
Proof.
  apply (set_pixmap_type_keeps_bindings_consistent good_answers shared_host 5
           (mkPixmap (mkDrawable 32 32 24 32) 128 0 2 None)
           GLAMOR_TEXTURE_DRM shared_host_consistent); reflexivity.
Defined.

Lemma set_pixmap_texture_keeps_bindings_consistent_witness :
  exists s',
    glamor_set_pixmap_texture pool_exhausted (pixmap_at 5) 7 bound_host =
      Some (tt, s') /\
    pixmaps s' = pixmaps bound_host /\
    bindings_consistent s'.
Proof.
  apply (set_pixmap_texture_keeps_bindings_consistent pool_exhausted
           bound_host 5
           (mkPixmap (mkDrawable 32 32 24 32) 128 0 1 (Some 9%N)) 9 7
           bound_host_consistent); reflexivity.
Defined.

Lemma set_screen_pixmap_keeps_bindings_consistent_witness :
  exists s',
    glamor_set_screen_pixmap (pixmap_at 5) bound_host = Some (tt, s') /\
    pixmaps s' = pixmaps bound_host /\
    bindings_consistent s'.
Proof.
  assert (exists s',
            glamor_set_screen_pixmap (pixmap_at 5) bound_host = Some (tt, s'))
    as (s' & Hrun) by (eexists; vm_compute; reflexivity).
  exists s'. split; [exact Hrun|].
  exact (set_screen_pixmap_keeps_bindings_consistent bound_host (pixmap_at 5)
           s' bound_host_consistent Hrun).
Defined.

Lemma create_then_destroy_restores_heaps_witness :
  exists p s1 s2,
    glamor_create_pixmap example_platform good_answers 32 32 24 0
      running_host = Some (p, s1) /\
    glamor_destroy_pixmap p s1 = Some (true, s2) /\
    pixmaps s2 = pixmaps running_host /\
    pixmap_privates s2 = pixmap_privates running_host /\
    screen_devPrivates s2 = screen_devPrivates running_host.
Proof.
  apply (create_then_destroy_restores_heaps example_platform good_answers
           32 32 24 0 running_host example_screen_private);
    [reflexivity | lia | lia | left; reflexivity].
Defined.

Lemma create_pixmap_leaks_placeholder_without_memory_witness :
  exists a0 a1 s1 s2,
    a0 <> a1 /\
    pixmaps running_host !! a0 = None /\
    glamor_create_pixmap example_platform out_of_memory 32 32 24 0
      running_host = Some (pixmap_at a1, s1) /\
    pixmaps s1 !! a1 = Some (mkPixmap (mkDrawable 32 32 24 32) 128 0 1 None) /\
    pixmaps s1 !! a0 = Some (mkPixmap (mkDrawable 0 0 24 32) 0 0 1 None) /\
    pixmap_privates s1 = pixmap_privates running_host /\
    glamor_destroy_pixmap (pixmap_at a1) s1 = Some (true, s2) /\
    pixmaps s2 =
      <[a0 := mkPixmap (mkDrawable 0 0 24 32) 0 0 1 None]>
        (pixmaps running_host).
Proof.
  apply (create_pixmap_leaks_placeholder_without_memory example_platform
           out_of_memory 32 32 24 0 running_host example_screen_private);
    first [reflexivity | lia | discriminate].
Defined.

Lemma create_pixmap_accelerated_witness :
  exists a b s' k,
    glamor_create_pixmap example_platform good_answers 32 32 24 0
      running_host = Some (pixmap_at a, s') /\
    pixmaps running_host !! a = None /\
    pixmap_privates running_host !! b = None /\
    pixmaps s' =
      <[a := mkPixmap (mkDrawable 32 32 24 32) k 0 1 (Some b)]>
        (pixmaps running_host) /\
    (0 < 32 -> k = pixmap_pitch 32 32) /\
    pixmap_privates s' =
      <[b := mkPixmapPrivate a GLAMOR_TEXTURE_ONLY (Some example_fbo)]>
        (pixmap_privates running_host) /\
    log s' = log running_host ++
      [call_glamor_create_fbo 32 32 24 0;
       call_glamor_pixmap_attach_fbo (pixmap_at a) example_fbo].
Proof.
  apply (create_pixmap_accelerated example_platform good_answers 32 32 24 0
           running_host example_screen_private example_fbo);
    first [reflexivity | lia | discriminate].
Defined.

Lemma create_pixmap_zero_sized_witness :
  exists a b s',
    glamor_create_pixmap example_platform good_answers 0 32 24 0
      running_host = Some (pixmap_at a, s') /\
    pixmaps running_host !! a = None /\
    pixmap_privates running_host !! b = None /\
    pixmaps s' =
      <[a := mkPixmap (mkDrawable 0 0 24 32) 0 0 1 (Some b)]>
        (pixmaps running_host) /\
    pixmap_privates s' =
      <[b := mkPixmapPrivate a GLAMOR_TEXTURE_ONLY None]>
        (pixmap_privates running_host) /\
    log s' = log running_host.
Proof.
  apply (create_pixmap_zero_sized example_platform good_answers 0 32 24 0
           running_host example_screen_private);
    first [reflexivity | lia | discriminate | left; reflexivity].
Defined.

Lemma pixmap_pitch_least_aligned_row_witness :
  pixmap_pitch 3 24 mod 4 = 0 /\
  3 * 24 <= 8 * pixmap_pitch 3 24 /\
  forall m, m mod 4 = 0 -> 3 * 24 <= 8 * m -> pixmap_pitch 3 24 <= m.
Proof.
  apply (pixmap_pitch_least_aligned_row 3 24). lia.
Defined.

Lemma good_answers_pass_negotiation :
  negotiation_passes example_platform good_answers GLAMOR_USE_SCREEN.
Proof. repeat split; try reflexivity; discriminate. Qed.

Lemma glamor_init_returns_true_exactly_when_witness :
  exists s',
    glamor_init example_platform good_answers GLAMOR_USE_SCREEN example_host =
      Some (true, s').
Proof.
  apply (proj1 (glamor_init_returns_true_exactly_when example_platform
                  good_answers GLAMOR_USE_SCREEN example_host)).
  split; [exact good_answers_pass_negotiation | discriminate].
Defined.

Lemma glamor_init_needs_picture_screen_witness :
  glamor_init example_platform good_answers GLAMOR_USE_SCREEN
    host_without_render = None.
Proof.
  apply (glamor_init_needs_picture_screen example_platform good_answers
           GLAMOR_USE_SCREEN host_without_render).
  split; [exact good_answers_pass_negotiation | split; reflexivity].
Defined.

Lemma glamor_init_flags_gate_families_witness :
  exists s' gp,
    glamor_init example_platform good_answers GLAMOR_USE_SCREEN example_host =
      Some (true, s') /\
    screen s' = install_screen_procs (screen example_host) /\
    screen_devPrivates s' = Some gp /\
    block_and_wakeup_handlers s' =
      [(P__glamor_block_handler, P__glamor_wakeup_handler,
        address_of_dispatch gp)] /\
    pixmaps s' = pixmaps example_host /\
    pixmap_privates s' = pixmap_privates example_host.
Proof.
  assert (exists s',
            glamor_init example_platform good_answers GLAMOR_USE_SCREEN
              example_host = Some (true, s')) as (s' & Hinit)
    by (eexists; vm_compute; reflexivity).
  destruct (glamor_init_flags_gate_families example_platform good_answers
              GLAMOR_USE_SCREEN example_host s' Hinit)
    as ((Hscr & gp & Hslot & Hbh) & _ & Hpm & Hpv).
  exists s', gp. auto 10.
Defined.

Lemma init_fixes_size_threshold_witness :
  exists s1,
    glamor_init example_platform good_answers GLAMOR_USE_SCREEN example_host =
      Some (true, s1) /\
    glamor_create_pixmap example_platform good_answers 5000 32 24 0 s1 =
      fbCreatePixmap example_platform 5000 32 24 0 s1.
Proof.
  assert (exists s1,
            glamor_init example_platform good_answers GLAMOR_USE_SCREEN
              example_host = Some (true, s1)) as (s1 & Hinit)
    by (eexists; vm_compute; reflexivity).
  exists s1. split; [exact Hinit|].
  refine (proj1 (init_fixes_size_threshold example_platform good_answers
                   GLAMOR_USE_SCREEN example_host s1 good_answers
                   5000 32 24 0 Hinit _ _) _).
  - lia.
  - lia.
  - left. reflexivity.
Defined.

Lemma init_then_close_restores_saved_slots_witness :
  exists s1 s2,
    glamor_init example_platform good_answers GLAMOR_USE_SCREEN example_host =
      Some (true, s1) /\
    glamor_close_screen_restore example_platform s1 =
      Some (GLAMOR_USE_SCREEN, s2) /\
    CloseScreen (screen s2) = host_proc 1 /\
    CreateGC (screen s2) = host_proc 2.
Proof.
  assert (exists s1,
            glamor_init example_platform good_answers GLAMOR_USE_SCREEN
              example_host = Some (true, s1)) as (s1 & Hinit)
    by (eexists; vm_compute; reflexivity).
  destruct (init_then_close_restores_saved_slots example_platform
              good_answers GLAMOR_USE_SCREEN example_host s1 Hinit)
    as (s2 & Hclose & _ & _ & Hslots & _).
  destruct (Hslots eq_refl) as (Hcs & Hgc & _).
  exists s1, s2. auto.
Defined.

Lemma close_screen_releases_only_the_context_witness :
  exists s2,
    glamor_close_screen_restore example_platform bound_host =
      Some (GLAMOR_USE_SCREEN, s2) /\
    screen_devPrivates s2 = None /\
    block_and_wakeup_handlers s2 = block_and_wakeup_handlers bound_host /\
    pixmaps s2 = pixmaps bound_host /\
    pixmap_privates s2 = pixmap_privates bound_host /\
    context_blocks s2 =
      delete (address_of_dispatch example_screen_private)
        (context_blocks bound_host).
Proof.
  apply (close_screen_releases_only_the_context example_platform bound_host
           example_screen_private). reflexivity.
Defined.

Lemma block_handler_outlives_teardown_witness :
  exists s1 gp s2,
    glamor_init example_platform good_answers GLAMOR_USE_SCREEN example_host =
      Some (true, s1) /\
    screen_devPrivates s1 = Some gp /\
    glamor_close_screen_restore example_platform s1 =
      Some (GLAMOR_USE_SCREEN, s2) /\
    block_and_wakeup_handlers s2 =
      [(P__glamor_block_handler, P__glamor_wakeup_handler,
        address_of_dispatch gp)] /\
    context_blocks s2 !! address_of_dispatch gp = None.
Proof.
  assert (exists s1,
            glamor_init example_platform good_answers GLAMOR_USE_SCREEN
              example_host = Some (true, s1)) as (s1 & Hinit)
    by (eexists; vm_compute; reflexivity).
  destruct (block_handler_outlives_teardown example_platform good_answers
              GLAMOR_USE_SCREEN example_host s1 Hinit eq_refl)
    as (gp & s2 & Hslot & _ & Hclose & _ & Hbh & Hfreed).
  exists s1, gp, s2. auto 10.
Defined.

Lemma nothing_follows_teardown_witness :
  exists s2,
    glamor_close_screen_restore example_platform running_host =
      Some (GLAMOR_USE_SCREEN, s2) /\
    (forall idx, glamor_close_screen example_platform idx s2 = None) /\
    glamor_block_handler s2 = None /\
    (forall p, glamor_set_screen_pixmap p s2 = None).
Proof.
  apply (nothing_follows_teardown example_platform running_host
           example_screen_private). reflexivity.
Defined.

Lemma second_init_saves_glamor_handlers_witness :
  exists s1 s2 gp s3,
    glamor_init example_platform good_answers GLAMOR_USE_SCREEN example_host =
      Some (true, s1) /\
    glamor_init example_platform good_answers GLAMOR_USE_SCREEN s1 =
      Some (true, s2) /\
    screen_devPrivates s2 = Some gp /\
    close_screen (saved_procs gp) = P_glamor_close_screen /\
    glamor_close_screen_restore example_platform s2 =
      Some (GLAMOR_USE_SCREEN, s3) /\
    CloseScreen (screen s3) = P_glamor_close_screen.
Proof.
  assert (exists s1,
            glamor_init example_platform good_answers GLAMOR_USE_SCREEN
              example_host = Some (true, s1)) as (s1 & Hinit1)
    by (eexists; vm_compute; reflexivity).
  assert (exists s2,
            glamor_init example_platform good_answers GLAMOR_USE_SCREEN s1 =
              Some (true, s2)) as (s2 & Hinit2).
  { apply glamor_init_succeeds.
    - reflexivity.
    - repeat split; try reflexivity; discriminate.
    - intros _.
      destruct (glamor_init_success_state _ _ _ _ _ Hinit1)
        as (_ & Hps & _).
      rewrite Hps. discriminate. }
  destruct (second_init_saves_glamor_handlers example_platform good_answers
              good_answers GLAMOR_USE_SCREEN GLAMOR_USE_SCREEN example_host
              s1 s2 Hinit1 eq_refl Hinit2 eq_refl)
    as (gp & s3 & Hslot & Hsaved & _ & Hclose & Hscr).
  exists s1, s2, gp, s3.
  split; [exact Hinit1|]. split; [exact Hinit2|]. split; [exact Hslot|].
  split; [now rewrite <- Hsaved|]. split; [exact Hclose|].
  now rewrite Hscr.
Defined.
